(** * Affective cognition engine: [src/core/character/advanced_emotions.py]

    A shallow embedding of the emotional-state engine and the properties
    the specification states about it.

    Conventions of the embedding.
    - A Python [float] is an exact rational ([Q]): every operation of the
      source is written with the same operator, without rounding.  Results
      are compared with [==], [<] and [<=] on [Q], never with [=].  The
      values NaN and infinity have no counterpart in [Q]: a statement
      about every state is a statement about the states whose floats are
      numbers.
    - [math.sqrt] has no rational value, so [distance_to] lives in [R];
      its argument, the sum of squares, is the rational [distance_sq].
    - A [str] is the byte string of its UTF-8 encoding.  Substring search
      on the encodings agrees with substring search on code points.
      [str.lower] is modelled on the Basic Latin and Latin-1 blocks
      ([lower]); a property of arbitrary texts either holds whatever the
      lowered text is, or has its hypothesis on the lowered text itself
      ([appraise_lowered]).
    - A raised exception is a value of [Result]; a method that mutates
      [self] takes the state and returns the new one.
    - [datetime.now()] is an argument [now], in seconds.
    - [get_summary], which rounds its floats for display, is left out. *)

From Stdlib Require Import QArith Qminmax Qabs Qpower Qreals Reals Lra Lqa Psatz.
From Stdlib Require Import ZArith List String Ascii Bool Lia.
Import ListNotations.

Open Scope string_scope.
Open Scope Q_scope.

(** ** Exceptions *)

Inductive Exception : Type :=
| AttributeError (name : string)
| ValidationError (field : string).

Inductive Result (A : Type) : Type :=
| Ok (a : A)
| Raise (e : Exception).

Arguments Ok {A} a.
Arguments Raise {A} e.

Definition bind {A B : Type} (m : Result A) (k : A -> Result B) : Result B :=
  match m with
  | Ok a => k a
  | Raise e => Raise e
  end.

Notation "x <- m ;; k" := (bind m (fun x => k))
  (at level 61, m at next level, right associativity).

(** [for x in xs: acc = body(acc, x)] where the body may raise. *)
Fixpoint foldM {A B : Type} (body : A -> B -> Result A) (xs : list B) (acc : A)
  : Result A :=
  match xs with
  | [] => Ok acc
  | x :: rest => acc' <- body acc x ;; foldM body rest acc'
  end.

(** ** Comparison of floats *)

(** [a < b] as a test. *)
Definition Qltb (a b : Q) : bool :=
  if Qlt_le_dec a b then true else false.

(** ** Strings: [str.lower] and the [in] operator *)

Definition is_upper (c : ascii) : bool :=
  let n := nat_of_ascii c in (65 <=? n)%nat && (n <=? 90)%nat.

Definition lower_char (c : ascii) : ascii :=
  if is_upper c then ascii_of_nat (nat_of_ascii c + 32) else c.

(** The second byte of a capital of the Latin-1 block (U+00C0 to U+00DE
    without the sign U+00D7), whose first byte is 195. *)
Definition is_latin1_upper (c : ascii) : bool :=
  let n := nat_of_ascii c in
  (128 <=? n)%nat && (n <=? 158)%nat && negb (n =? 151)%nat.

(** [str.lower] on the letters A to Z and on the accented capitals of the
    Latin-1 block, which covers the two languages of the keyword table;
    the bytes of every other character are kept.  On a text of these two
    blocks (code points up to U+00FF) this is [str.lower].  Beyond them
    [str.lower] changes further characters, which this function keeps:
    the Kelvin sign U+212A, for one, becomes the letter k. *)
Fixpoint lower (s : string) : string :=
  match s with
  | EmptyString => EmptyString
  | String c rest =>
      match rest with
      | String c' rest' =>
          if (nat_of_ascii c =? 195)%nat && is_latin1_upper c'
          then String c (String (ascii_of_nat (nat_of_ascii c' + 32)) (lower rest'))
          else String (lower_char c) (lower rest)
      | EmptyString => String (lower_char c) EmptyString
      end
  end.

Fixpoint startswith (s prefix : string) : bool :=
  match prefix, s with
  | EmptyString, _ => true
  | String _ _, EmptyString => false
  | String p prefix', String c s' => Ascii.eqb p c && startswith s' prefix'
  end.

(** [sub in s] *)
Fixpoint contains (s sub : string) : bool :=
  startswith s sub ||
  match s with
  | EmptyString => false
  | String _ s' => contains s' sub
  end.

(** ** Dimensional model (valence, arousal, dominance) *)

Record AffectiveDimensions : Type := mkAffect {
  valence : Q;
  arousal : Q;
  dominance : Q
}.

Definition blend (self other : AffectiveDimensions) (weight : Q)
  : AffectiveDimensions :=
  {| valence := valence self * (1 - weight) + valence other * weight;
     arousal := arousal self * (1 - weight) + arousal other * weight;
     dominance := dominance self * (1 - weight) + dominance other * weight |}.

(** The argument of [math.sqrt] in [distance_to]. *)
Definition distance_sq (self other : AffectiveDimensions) : Q :=
  (valence self - valence other) ^ 2 +
  (arousal self - arousal other) ^ 2 +
  (dominance self - dominance other) ^ 2.

Definition distance_to (self other : AffectiveDimensions) : R :=
  sqrt (Q2R (distance_sq self other)).

Definition decay_toward (self baseline : AffectiveDimensions) (rate : Q)
  : AffectiveDimensions :=
  {| valence := valence self + (valence baseline - valence self) * rate;
     arousal := arousal self + (arousal baseline - arousal self) * rate;
     dominance := dominance self + (dominance baseline - dominance self) * rate |}.

(** ** Panksepp's primary affective systems *)

Module AffectiveSystem.
Inductive t : Type :=
| SEEKING | RAGE | FEAR | LUST | CARE | PANIC_GRIEF | PLAY.

Definition value (s : t) : string :=
  match s with
  | SEEKING => "seeking"
  | RAGE => "rage"
  | FEAR => "fear"
  | LUST => "lust"
  | CARE => "care"
  | PANIC_GRIEF => "panic_grief"
  | PLAY => "play"
  end.

Definition eqb (a b : t) : bool :=
  match a, b with
  | SEEKING, SEEKING | RAGE, RAGE | FEAR, FEAR | LUST, LUST
  | CARE, CARE | PANIC_GRIEF, PANIC_GRIEF | PLAY, PLAY => true
  | _, _ => false
  end.

(** Iteration order of the enumeration. *)
Definition members : list t :=
  [SEEKING; RAGE; FEAR; LUST; CARE; PANIC_GRIEF; PLAY].
End AffectiveSystem.

Definition SYSTEM_DIMENSIONS (system : AffectiveSystem.t) : AffectiveDimensions :=
  match system with
  | AffectiveSystem.SEEKING => mkAffect 0.5 0.6 0.4
  | AffectiveSystem.RAGE => mkAffect (-0.7) 0.9 0.6
  | AffectiveSystem.FEAR => mkAffect (-0.8) 0.7 (-0.6)
  | AffectiveSystem.LUST => mkAffect 0.6 0.7 0.2
  | AffectiveSystem.CARE => mkAffect 0.7 0.2 0.3
  | AffectiveSystem.PANIC_GRIEF => mkAffect (-0.8) 0.4 (-0.7)
  | AffectiveSystem.PLAY => mkAffect 0.8 0.6 0.3
  end.

(** ** Appraisal dimensions *)

Record AppraisalResult : Type := mkAppraisal {
  novelty : Q;
  pleasantness : Q;
  goal_relevance : Q;
  goal_conduciveness : Q;
  urgency : Q;
  control : Q;
  power : Q;
  adjustment : Q;
  internal_standards : Q;
  external_standards : Q
}.

(** [AppraisalResult()]: every field has the default 0.0. *)
Definition AppraisalResult_default : AppraisalResult :=
  mkAppraisal 0 0 0 0 0 0 0 0 0 0.

Definition to_dimensions (self : AppraisalResult) : AffectiveDimensions :=
  let valence := (pleasantness self + goal_conduciveness self) / 2 in
  let arousal := (novelty self + urgency self + goal_relevance self) / 3 in
  let dominance := (control self + power self) / 2 in
  {| valence := Qmax (-1) (Qmin 1 valence);
     arousal := Qmax (-1) (Qmin 1 arousal);
     dominance := Qmax (-1) (Qmin 1 dominance) |}.

(** [getattr(appraisal, name)]: a name that is no field raises (the
    names of methods, which the tables never use, are not modelled). *)
Definition getattr (a : AppraisalResult) (name : string) : Result Q :=
  if name =? "novelty" then Ok (novelty a)
  else if name =? "pleasantness" then Ok (pleasantness a)
  else if name =? "goal_relevance" then Ok (goal_relevance a)
  else if name =? "goal_conduciveness" then Ok (goal_conduciveness a)
  else if name =? "urgency" then Ok (urgency a)
  else if name =? "control" then Ok (control a)
  else if name =? "power" then Ok (power a)
  else if name =? "adjustment" then Ok (adjustment a)
  else if name =? "internal_standards" then Ok (internal_standards a)
  else if name =? "external_standards" then Ok (external_standards a)
  else Raise (AttributeError name).

(** [setattr(appraisal, name, v)]: a name that is no field adds an
    attribute of its own and leaves the ten fields as they are. *)
Definition setattr (a : AppraisalResult) (name : string) (v : Q) : AppraisalResult :=
  let '(mkAppraisal n p gr gc u c pw ad i e) := a in
  if name =? "novelty" then mkAppraisal v p gr gc u c pw ad i e
  else if name =? "pleasantness" then mkAppraisal n v gr gc u c pw ad i e
  else if name =? "goal_relevance" then mkAppraisal n p v gc u c pw ad i e
  else if name =? "goal_conduciveness" then mkAppraisal n p gr v u c pw ad i e
  else if name =? "urgency" then mkAppraisal n p gr gc v c pw ad i e
  else if name =? "control" then mkAppraisal n p gr gc u v pw ad i e
  else if name =? "power" then mkAppraisal n p gr gc u c v ad i e
  else if name =? "adjustment" then mkAppraisal n p gr gc u c pw v i e
  else if name =? "internal_standards" then mkAppraisal n p gr gc u c pw ad v e
  else if name =? "external_standards" then mkAppraisal n p gr gc u c pw ad i v
  else a.

(** ** Emotion labels *)

Module EmotionLabel.
Inductive t : Type :=
| EXCITEMENT | JOY | ENTHUSIASM | DELIGHT
| CONTENTMENT | SERENITY | CALM | PEACE
| ANGER | FEAR | ANXIETY | FRUSTRATION | PANIC
| SADNESS | MELANCHOLY | GRIEF | DESPAIR | BOREDOM
| LOVE | COMPASSION | PRIDE | SHAME | GUILT | CONTEMPT | DISGUST
| ENVY | JEALOUSY | GRATITUDE | AWE
| CURIOSITY | INTEREST | SURPRISE | CONFUSION | DETERMINATION | HOPE
| NEUTRAL.
End EmotionLabel.

Definition EMOTION_COORDINATES : list (EmotionLabel.t * AffectiveDimensions) :=
  [
    (EmotionLabel.EXCITEMENT, mkAffect 0.7 0.8 0.5);
    (EmotionLabel.JOY, mkAffect 0.8 0.6 0.4);
    (EmotionLabel.ENTHUSIASM, mkAffect 0.7 0.7 0.6);
    (EmotionLabel.DELIGHT, mkAffect 0.8 0.5 0.3);
    (EmotionLabel.CONTENTMENT, mkAffect 0.6 (-0.2) 0.3);
    (EmotionLabel.SERENITY, mkAffect 0.7 (-0.4) 0.4);
    (EmotionLabel.CALM, mkAffect 0.4 (-0.5) 0.3);
    (EmotionLabel.PEACE, mkAffect 0.6 (-0.6) 0.5);
    (EmotionLabel.ANGER, mkAffect (-0.6) 0.8 0.6);
    (EmotionLabel.FEAR, mkAffect (-0.8) 0.7 (-0.6));
    (EmotionLabel.ANXIETY, mkAffect (-0.5) 0.6 (-0.4));
    (EmotionLabel.FRUSTRATION, mkAffect (-0.5) 0.6 (-0.2));
    (EmotionLabel.PANIC, mkAffect (-0.9) 0.9 (-0.8));
    (EmotionLabel.SADNESS, mkAffect (-0.6) (-0.3) (-0.3));
    (EmotionLabel.MELANCHOLY, mkAffect (-0.4) (-0.4) (-0.2));
    (EmotionLabel.GRIEF, mkAffect (-0.8) 0.2 (-0.6));
    (EmotionLabel.DESPAIR, mkAffect (-0.9) (-0.2) (-0.8));
    (EmotionLabel.BOREDOM, mkAffect (-0.3) (-0.6) (-0.1));
    (EmotionLabel.LOVE, mkAffect 0.9 0.4 0.2);
    (EmotionLabel.COMPASSION, mkAffect 0.6 0.2 0.4);
    (EmotionLabel.PRIDE, mkAffect 0.7 0.4 0.7);
    (EmotionLabel.SHAME, mkAffect (-0.7) 0.4 (-0.6));
    (EmotionLabel.GUILT, mkAffect (-0.6) 0.3 (-0.4));
    (EmotionLabel.CONTEMPT, mkAffect (-0.5) 0.2 0.6);
    (EmotionLabel.DISGUST, mkAffect (-0.7) 0.3 0.3);
    (EmotionLabel.ENVY, mkAffect (-0.5) 0.4 (-0.3));
    (EmotionLabel.JEALOUSY, mkAffect (-0.6) 0.6 (-0.2));
    (EmotionLabel.GRATITUDE, mkAffect 0.8 0.3 (-0.1));
    (EmotionLabel.AWE, mkAffect 0.6 0.5 (-0.3));
    (EmotionLabel.CURIOSITY, mkAffect 0.4 0.5 0.3);
    (EmotionLabel.INTEREST, mkAffect 0.3 0.4 0.2);
    (EmotionLabel.SURPRISE, mkAffect 0.1 0.7 (-0.1));
    (EmotionLabel.CONFUSION, mkAffect (-0.2) 0.4 (-0.3));
    (EmotionLabel.DETERMINATION, mkAffect 0.3 0.6 0.7);
    (EmotionLabel.HOPE, mkAffect 0.6 0.3 0.2);
    (EmotionLabel.NEUTRAL, mkAffect 0.0 0.0 0.0)
  ].

(** [float('inf')] is [None]; a finite minimum is [Some d]. *)
Definition lt_min (distance : R) (min_distance : option R) : bool :=
  match min_distance with
  | None => true
  | Some m => if Rlt_dec distance m then true else false
  end.

(** The [for] loop of [get_closest_emotion]. *)
Fixpoint closest_scan (dimensions : AffectiveDimensions)
    (table : list (EmotionLabel.t * AffectiveDimensions))
    (min_distance : option R) (closest : EmotionLabel.t)
  : option R * EmotionLabel.t :=
  match table with
  | [] => (min_distance, closest)
  | (emotion, coords) :: rest =>
      let distance := distance_to dimensions coords in
      if lt_min distance min_distance
      then closest_scan dimensions rest (Some distance) emotion
      else closest_scan dimensions rest min_distance closest
  end.

Definition get_closest_emotion (dimensions : AffectiveDimensions)
  : EmotionLabel.t * R :=
  let '(min_distance, closest) :=
    closest_scan dimensions EMOTION_COORDINATES None EmotionLabel.NEUTRAL in
  let confidence :=
    match min_distance with
    | Some d => Rmax 0 (1 - d / 2)
    | None => 0%R
    end in
  (closest, confidence).

(** The same scan on the squared distances, which are rational and can
    be evaluated. *)
Definition lt_min_sq (d : Q) (min_sq : option Q) : bool :=
  match min_sq with
  | None => true
  | Some m => Qltb d m
  end.

Fixpoint closest_scan_sq (dimensions : AffectiveDimensions)
    (table : list (EmotionLabel.t * AffectiveDimensions))
    (min_sq : option Q) (closest : EmotionLabel.t)
  : option Q * EmotionLabel.t :=
  match table with
  | [] => (min_sq, closest)
  | (emotion, coords) :: rest =>
      let d := distance_sq dimensions coords in
      if lt_min_sq d min_sq
      then closest_scan_sq dimensions rest (Some d) emotion
      else closest_scan_sq dimensions rest min_sq closest
  end.

Definition get_closest_emotion_sq (dimensions : AffectiveDimensions)
  : option Q * EmotionLabel.t :=
  closest_scan_sq dimensions EMOTION_COORDINATES None EmotionLabel.NEUTRAL.

(** ** Semantic appraisal patterns *)

Record AppraisalPattern : Type := mkPattern {
  keywords : list string;
  appraisal_effects : list (string * Q);
  system_activation : option AffectiveSystem.t
}.

Definition APPRAISAL_PATTERNS : list AppraisalPattern :=
  [
    {| keywords := ["tell me"; "what"; "why"; "how"; "explain"; "curious"; "wonder";
                    "interesting"; "discover"; "explore"; "learn"; "understand";
                    "dimmi"; "cosa"; "perché"; "come"; "spiega"; "curioso"];
       appraisal_effects := [("novelty", 0.5); ("goal_relevance", 0.6);
                    ("pleasantness", 0.3)];
       system_activation := Some AffectiveSystem.SEEKING |};
    {| keywords := ["angry"; "furious"; "hate"; "unfair"; "frustrating"; "annoying";
                    "enemy"; "betrayed"; "cheated"; "stolen"; "injustice";
                    "arrabbiato"; "odio"; "ingiusto"; "tradito"; "nemico"];
       appraisal_effects := [("pleasantness", (-0.7)); ("goal_conduciveness", (-0.8));
                    ("urgency", 0.6); ("power", 0.4)];
       system_activation := Some AffectiveSystem.RAGE |};
    {| keywords := ["danger"; "threat"; "afraid"; "scared"; "terrified"; "attack";
                    "enemy"; "death"; "kill"; "destroy"; "monster"; "dark"; "pericolo";
                    "paura"; "minaccia"; "morte"; "attacco"];
       appraisal_effects := [("pleasantness", (-0.8)); ("urgency", 0.8);
                    ("control", (-0.5)); ("goal_conduciveness", (-0.6))];
       system_activation := Some AffectiveSystem.FEAR |};
    {| keywords := ["help"; "protect"; "care"; "love"; "friend"; "family"; "child";
                    "safe"; "comfort"; "support"; "together"; "trust"; "aiuto";
                    "proteggere"; "amore"; "amico"; "famiglia"];
       appraisal_effects := [("pleasantness", 0.7); ("goal_relevance", 0.6);
                    ("internal_standards", 0.5)];
       system_activation := Some AffectiveSystem.CARE |};
    {| keywords := ["lost"; "gone"; "died"; "death"; "miss"; "alone"; "lonely";
                    "abandoned"; "left"; "goodbye"; "never"; "farewell"; "perso";
                    "morto"; "solo"; "addio"; "abbandonato"];
       appraisal_effects := [("pleasantness", (-0.8)); ("goal_conduciveness", (-0.7));
                    ("control", (-0.6)); ("adjustment", (-0.5))];
       system_activation := Some AffectiveSystem.PANIC_GRIEF |};
    {| keywords := ["fun"; "play"; "game"; "joke"; "laugh"; "happy"; "joy"; "party";
                    "celebrate"; "dance"; "sing"; "wonderful"; "amazing"; "great";
                    "fantastic"; "awesome"; "brilliant"; "lovely"; "beautiful";
                    "divertente"; "gioco"; "ridere"; "felice"; "festa"; "bello";
                    "fantastico"; "meraviglioso"; "stupendo"; "magnifico"];
       appraisal_effects := [("pleasantness", 0.9); ("novelty", 0.4); ("control", 0.5);
                    ("goal_conduciveness", 0.6)];
       system_activation := Some AffectiveSystem.PLAY |};
    {| keywords := ["thank"; "grateful"; "appreciate"; "thanks"; "blessing"; "grazie";
                    "grato"; "apprezzo"; "benedizione"; "gentile"; "kind"; "generous";
                    "thoughtful"];
       appraisal_effects := [("pleasantness", 0.8); ("external_standards", 0.6);
                    ("goal_conduciveness", 0.5); ("internal_standards", 0.4)];
       system_activation := Some AffectiveSystem.CARE |};
    {| keywords := ["hope"; "maybe"; "possible"; "future"; "better"; "tomorrow";
                    "chance"; "opportunity"; "dream"; "wish"; "speranza"; "forse";
                    "futuro"; "domani"; "sogno"];
       appraisal_effects := [("pleasantness", 0.6); ("goal_conduciveness", 0.5);
                    ("adjustment", 0.5)];
       system_activation := Some AffectiveSystem.SEEKING |};
    {| keywords := ["sorry"; "apologize"; "fault"; "mistake"; "wrong"; "failed";
                    "ashamed"; "embarrassed"; "regret"; "scusa"; "errore"; "sbagliato";
                    "vergogna"; "colpa"];
       appraisal_effects := [("pleasantness", (-0.5)); ("internal_standards", (-0.6));
                    ("external_standards", (-0.5)); ("control", (-0.3))];
       system_activation := None |};
    {| keywords := ["proud"; "accomplished"; "achieved"; "success"; "won"; "victory";
                    "best"; "excellent"; "mastered"; "hero"; "well done"; "bravo";
                    "orgoglioso"; "successo"; "vittoria"; "eroe"; "campione";
                    "complimenti"; "bravissimo"];
       appraisal_effects := [("pleasantness", 0.8); ("internal_standards", 0.8);
                    ("power", 0.7); ("control", 0.6)];
       system_activation := Some AffectiveSystem.PLAY |};
    {| keywords := ["surprise"; "unexpected"; "sudden"; "shocking"; "unbelievable";
                    "wow"; "amazing"; "incredible"; "really"; "sorpresa"; "improvviso";
                    "incredibile"; "davvero"];
       appraisal_effects := [("novelty", 0.9); ("urgency", 0.4)];
       system_activation := Some AffectiveSystem.SEEKING |};
    {| keywords := ["hello"; "hi"; "hey"; "good morning"; "good evening"; "greetings";
                    "welcome"; "nice to meet"; "pleasure"; "good to see"; "ciao";
                    "salve"; "buongiorno"; "buonasera"; "piacere"; "benvenuto";
                    "come stai"; "come va"];
       appraisal_effects := [("pleasantness", 0.6); ("external_standards", 0.4);
                    ("goal_conduciveness", 0.3)];
       system_activation := Some AffectiveSystem.PLAY |};
    {| keywords := ["you're great"; "you're amazing"; "impressive"; "admire";
                    "respect"; "wise"; "smart"; "clever"; "talented"; "skilled";
                    "powerful"; "strong"; "beautiful"; "magnificent"; "noble";
                    "sei grande"; "sei fantastico"; "ammiro"; "rispetto"; "saggio";
                    "intelligente"; "bravo"; "forte"; "potente"];
       appraisal_effects := [("pleasantness", 0.85); ("internal_standards", 0.7);
                    ("power", 0.5); ("external_standards", 0.6)];
       system_activation := Some AffectiveSystem.PLAY |};
    {| keywords := ["yes"; "agree"; "right"; "true"; "correct"; "exactly"; "indeed";
                    "absolutely"; "of course"; "certainly"; "sì"; "giusto"; "vero";
                    "esatto"; "certo"; "certamente"; "proprio così"; "hai ragione";
                    "concordo"];
       appraisal_effects := [("pleasantness", 0.5); ("goal_conduciveness", 0.4);
                    ("external_standards", 0.3)];
       system_activation := Some AffectiveSystem.CARE |};
    {| keywords := ["tell me more"; "fascinating"; "intriguing"; "love to hear";
                    "want to know"; "sounds good"; "sounds great"; "exciting";
                    "raccontami"; "affascinante"; "interessante"; "vorrei sapere";
                    "mi piace"; "che bello"; "entusiasmante"];
       appraisal_effects := [("pleasantness", 0.6); ("novelty", 0.5);
                    ("goal_relevance", 0.5); ("goal_conduciveness", 0.4)];
       system_activation := Some AffectiveSystem.SEEKING |};
    {| keywords := ["adventure"; "quest"; "journey"; "mission"; "let's go"; "ready";
                    "brave"; "courage"; "together"; "allies"; "avventura"; "missione";
                    "viaggio"; "andiamo"; "pronti"; "coraggio"; "insieme"; "alleati";
                    "compagni"];
       appraisal_effects := [("pleasantness", 0.7); ("goal_relevance", 0.7);
                    ("goal_conduciveness", 0.6); ("power", 0.5)];
       system_activation := Some AffectiveSystem.SEEKING |};
    {| keywords := ["peace"; "calm"; "quiet"; "rest"; "relax"; "serene"; "tranquil";
                    "pace"; "calma"; "tranquillo"; "riposo"; "sereno"; "rilassante";
                    "quiete"; "armonia"];
       appraisal_effects := [("pleasantness", 0.6); ("control", 0.5);
                    ("adjustment", 0.5); ("urgency", (-0.4))];
       system_activation := Some AffectiveSystem.CARE |};
    {| keywords := ["story"; "tale"; "legend"; "once upon"; "long ago"; "tell";
                    "storia"; "racconto"; "leggenda"; "c'era una volta"; "narra";
                    "racconta"];
       appraisal_effects := [("pleasantness", 0.5); ("novelty", 0.6);
                    ("goal_relevance", 0.4)];
       system_activation := Some AffectiveSystem.SEEKING |}
  ].

(** [effects.get(k, default)] on the effect dictionary. *)
Fixpoint effects_get (effects : list (string * Q)) (k : string) (default : Q) : Q :=
  match effects with
  | [] => default
  | (k', v) :: rest => if k' =? k then v else effects_get rest k default
  end.

(** ** Advanced emotional state *)

(** [system_activations]: a dictionary in insertion order.  Its keys are
    the values of the [AffectiveSystem] members, written here as the
    members themselves. *)
Definition Activations : Type := list (AffectiveSystem.t * Q).

(** [d.get(k, default)] *)
Fixpoint dict_get (d : Activations) (k : AffectiveSystem.t) (default : Q) : Q :=
  match d with
  | [] => default
  | (k', v) :: rest =>
      if AffectiveSystem.eqb k' k then v else dict_get rest k default
  end.

(** [d[k] = v]: an existing key keeps its place, a new key goes last. *)
Fixpoint dict_set (d : Activations) (k : AffectiveSystem.t) (v : Q) : Activations :=
  match d with
  | [] => [(k, v)]
  | (k', v') :: rest =>
      if AffectiveSystem.eqb k' k then (k', v) :: rest
      else (k', v') :: dict_set rest k v
  end.

Record Snapshot : Type := mkSnapshot {
  timestamp : Q;
  snap_valence : Q;
  snap_arousal : Q;
  snap_dominance : Q;
  systems : Activations
}.

Record AdvancedEmotionalState : Type := mkState {
  character_id : string;
  current_affect : AffectiveDimensions;
  baseline_affect : AffectiveDimensions;
  system_activations : Activations;
  last_appraisal : option AppraisalResult;
  emotional_inertia : Q;
  last_update : Q;
  affect_history : list Snapshot;
  max_history : Z
}.

Definition set_current_affect (self : AdvancedEmotionalState)
    (a : AffectiveDimensions) : AdvancedEmotionalState :=
  mkState (character_id self) a (baseline_affect self) (system_activations self)
          (last_appraisal self) (emotional_inertia self) (last_update self)
          (affect_history self) (max_history self).

Definition set_system_activations (self : AdvancedEmotionalState)
    (d : Activations) : AdvancedEmotionalState :=
  mkState (character_id self) (current_affect self) (baseline_affect self) d
          (last_appraisal self) (emotional_inertia self) (last_update self)
          (affect_history self) (max_history self).

Definition set_last_appraisal (self : AdvancedEmotionalState)
    (a : AppraisalResult) : AdvancedEmotionalState :=
  mkState (character_id self) (current_affect self) (baseline_affect self)
          (system_activations self) (Some a) (emotional_inertia self)
          (last_update self) (affect_history self) (max_history self).

Definition set_last_update (self : AdvancedEmotionalState) (t : Q)
  : AdvancedEmotionalState :=
  mkState (character_id self) (current_affect self) (baseline_affect self)
          (system_activations self) (last_appraisal self) (emotional_inertia self)
          t (affect_history self) (max_history self).

Definition set_affect_history (self : AdvancedEmotionalState)
    (h : list Snapshot) : AdvancedEmotionalState :=
  mkState (character_id self) (current_affect self) (baseline_affect self)
          (system_activations self) (last_appraisal self) (emotional_inertia self)
          (last_update self) h (max_history self).

(** The constructor.  The declaration
    [emotional_inertia: float = Field(default=0.3, ge=0.0, le=1.0)] makes
    the model validation raise outside the interval; the two
    [AffectiveDimensions] fields carry no constraint.  An empty
    [system_activations] is filled with every system at 0.0. *)
Definition AdvancedEmotionalState_init (now : Q) (character_id : string)
    (current_affect baseline_affect : AffectiveDimensions)
    (system_activations : Activations) (emotional_inertia : Q)
  : Result AdvancedEmotionalState :=
  if Qle_bool 0.0 emotional_inertia && Qle_bool emotional_inertia 1.0 then
    let activations :=
      match system_activations with
      | [] => map (fun s => (s, 0.0)) AffectiveSystem.members
      | _ => system_activations
      end in
    Ok (mkState character_id current_affect baseline_affect activations
                None emotional_inertia now [] 50)
  else Raise (ValidationError "emotional_inertia").

Definition _activate_system (self : AdvancedEmotionalState)
    (system : AffectiveSystem.t) (intensity : Q) : AdvancedEmotionalState :=
  let current := dict_get (system_activations self) system 0 in
  let new_value := current + (intensity - current) * (1 - emotional_inertia self) in
  set_system_activations self
    (dict_set (system_activations self) system (Qmax 0 (Qmin 1 new_value))).

(** [sum(1 for kw in pattern.keywords if kw in message_lower)] *)
Definition count_matches (keywords : list string) (message_lower : string) : nat :=
  List.length (filter (fun kw => contains message_lower kw) keywords).

Definition is_negative_pattern (pattern : AppraisalPattern) : bool :=
  existsb
    (fun k => Qltb (effects_get (appraisal_effects pattern) k 0) (-0.3))
    ["pleasantness"; "goal_conduciveness"].

Definition is_negative_system (system : AffectiveSystem.t) : bool :=
  existsb (AffectiveSystem.eqb system)
    [AffectiveSystem.RAGE; AffectiveSystem.FEAR; AffectiveSystem.PANIC_GRIEF].

(** [for dim, effect in pattern.appraisal_effects.items()] *)
Definition apply_effect (weight : Q) (appraisal : AppraisalResult)
    (item : string * Q) : Result AppraisalResult :=
  let '(dim, effect) := item in
  current <- getattr appraisal dim ;;
  Ok (setattr appraisal dim (current + effect * weight)).

(** The body of the loop over [APPRAISAL_PATTERNS]: the accumulator is
    the appraisal under construction and the state. *)
Definition appraise_pattern (message_lower : string)
    (acc : AppraisalResult * AdvancedEmotionalState) (pattern : AppraisalPattern)
  : Result (AppraisalResult * AdvancedEmotionalState) :=
  let '(appraisal, self) := acc in
  let matches := count_matches (keywords pattern) message_lower in
  if (0 <? matches)%nat then
    let weight := Qmin 1.0 (inject_Z (Z.of_nat matches) * 0.3) in
    let weight := if is_negative_pattern pattern then weight * 1.8 else weight in
    appraisal' <- foldM (apply_effect weight) (appraisal_effects pattern) appraisal ;;
    match system_activation pattern with
    | Some system =>
        let system_weight := weight * 0.5 in
        let system_weight :=
          if is_negative_system system then system_weight * 1.5
          else system_weight in
        Ok (appraisal', _activate_system self system system_weight)
    | None => Ok (appraisal', self)
    end
  else Ok acc.

Definition APPRAISAL_FIELDS : list string :=
  ["novelty"; "pleasantness"; "goal_relevance"; "goal_conduciveness";
   "urgency"; "control"; "power"; "adjustment";
   "internal_standards"; "external_standards"].

Definition clamp_field (appraisal : AppraisalResult) (field_name : string)
  : Result AppraisalResult :=
  value <- getattr appraisal field_name ;;
  Ok (setattr appraisal field_name (Qmax (-1) (Qmin 1 value))).

(** [appraise_message] below its first line, as a function of
    [message_lower], the value of [message.lower()]. *)
Definition appraise_lowered (self : AdvancedEmotionalState)
    (message_lower : string)
  : Result (AppraisalResult * AdvancedEmotionalState) :=
  acc <- foldM (appraise_pattern message_lower) APPRAISAL_PATTERNS
               (AppraisalResult_default, self) ;;
  let '(appraisal, self) := acc in
  appraisal <- foldM clamp_field APPRAISAL_FIELDS appraisal ;;
  Ok (appraisal, set_last_appraisal self appraisal).

Definition appraise_message (self : AdvancedEmotionalState) (message : string)
  : Result (AppraisalResult * AdvancedEmotionalState) :=
  let message_lower := lower message in
  appraise_lowered self message_lower.

(** [l[start:]] with Python's treatment of a negative or large [start]. *)
Definition slice_from {A : Type} (l : list A) (start : Z) : list A :=
  let n := Z.of_nat (List.length l) in
  let s := if (start <? 0)%Z then Z.max 0 (start + n) else Z.min start n in
  skipn (Z.to_nat s) l.

Definition _record_state (now : Q) (self : AdvancedEmotionalState)
  : AdvancedEmotionalState :=
  let entry :=
    {| timestamp := now;
       snap_valence := valence (current_affect self);
       snap_arousal := arousal (current_affect self);
       snap_dominance := dominance (current_affect self);
       systems := system_activations self |} in
  let history := (affect_history self ++ [entry])%list in
  if (max_history self <? Z.of_nat (List.length history))%Z
  then set_affect_history self (slice_from history (- max_history self))
  else set_affect_history self history.

(** The loop of [update_affect] over [system_activations.items()]: the
    accumulator is [(system_influence, total_activation)]. *)
Definition influence_step (acc : AffectiveDimensions * Q)
    (item : AffectiveSystem.t * Q) : AffectiveDimensions * Q :=
  let '(system_influence, total_activation) := acc in
  let '(system, activation) := item in
  if Qltb 0.1 activation then
    let system_dims := SYSTEM_DIMENSIONS system in
    ({| valence := valence system_influence + valence system_dims * activation;
        arousal := arousal system_influence + arousal system_dims * activation;
        dominance :=
          dominance system_influence + dominance system_dims * activation |},
     total_activation + activation)
  else acc.

Definition system_influence_of (activations : Activations) : AffectiveDimensions :=
  let '(system_influence, total_activation) :=
    fold_left influence_step activations (mkAffect 0.0 0.0 0.0, 0) in
  if Qltb 0 total_activation then
    {| valence := valence system_influence / total_activation;
       arousal := arousal system_influence / total_activation;
       dominance := dominance system_influence / total_activation |}
  else system_influence.

(** [combined_target] of [update_affect]. *)
Definition combined_target (self : AdvancedEmotionalState)
    (appraisal : AppraisalResult) : AffectiveDimensions :=
  let target := to_dimensions appraisal in
  let system_influence := system_influence_of (system_activations self) in
  blend target system_influence 0.4.

(** [transition_resistance] of [update_affect], after the two
    contamination branches. *)
Definition transition_resistance (self : AdvancedEmotionalState)
    (combined_target : AffectiveDimensions) : Q :=
  let transition_resistance := 1 - emotional_inertia self in
  if Qltb (valence (current_affect self)) (-0.3)
     && Qltb 0 (valence combined_target)
  then transition_resistance * 0.4
  else if Qltb 0.3 (valence (current_affect self))
          && Qltb (valence combined_target) 0
  then transition_resistance * 1.3
  else transition_resistance.

Definition update_affect (now : Q) (self : AdvancedEmotionalState)
    (appraisal : AppraisalResult) : AdvancedEmotionalState :=
  let combined_target := combined_target self appraisal in
  let transition_resistance := transition_resistance self combined_target in
  let self :=
    set_current_affect self
      (blend (current_affect self) combined_target
             (Qmin 1.0 transition_resistance)) in
  _record_state now self.

(** [decay_rate] of [decay], from the elapsed seconds. *)
Definition decay_rate_of (self : AdvancedEmotionalState) (seconds_elapsed : Q) : Q :=
  let base_decay_rate := 0.05 * (seconds_elapsed / 60.0) in
  if Qltb (valence (current_affect self)) (-0.2) then
    let arousal_factor := 1.0 + Qmax 0 (arousal (current_affect self)) * 0.5 in
    base_decay_rate * 0.4 / arousal_factor
  else if Qltb 0.2 (valence (current_affect self)) then
    base_decay_rate * 1.5
  else base_decay_rate.

(** The loop of [decay] over the keys of [system_activations]. *)
Definition decay_activation (decay_rate : Q) (item : AffectiveSystem.t * Q)
  : AffectiveSystem.t * Q :=
  let '(system, activation) := item in
  if existsb (String.eqb (AffectiveSystem.value system))
             ["rage"; "fear"; "panic_grief"]
  then (system, activation * (1 - decay_rate * 0.5))
  else if existsb (String.eqb (AffectiveSystem.value system)) ["play"; "care"]
  then (system, activation * (1 - decay_rate))
  else (system, activation * (1 - decay_rate * 0.8)).

Definition decay (now : Q) (self : AdvancedEmotionalState)
    (seconds_elapsed : option Q) : AdvancedEmotionalState :=
  let seconds_elapsed :=
    match seconds_elapsed with
    | None => now - last_update self
    | Some s => s
    end in
  let decay_rate := decay_rate_of self seconds_elapsed in
  let self :=
    set_current_affect self
      (decay_toward (current_affect self) (baseline_affect self) decay_rate) in
  let self :=
    set_system_activations self
      (map (decay_activation decay_rate) (system_activations self)) in
  set_last_update self now.

Definition get_emotion_label (self : AdvancedEmotionalState) : EmotionLabel.t * R :=
  get_closest_emotion (current_affect self).

(** ** Factory *)

Definition create_advanced_emotional_state (now : Q) (character_id : string)
    (baseline_valence baseline_arousal baseline_dominance emotional_inertia : Q)
  : Result AdvancedEmotionalState :=
  let baseline :=
    {| valence := baseline_valence;
       arousal := baseline_arousal;
       dominance := baseline_dominance |} in
  AdvancedEmotionalState_init now character_id baseline baseline []
                              emotional_inertia.

(** The factory with its default arguments. *)
Definition default_state : Result AdvancedEmotionalState :=
  create_advanced_emotional_state 0 "character" 0.15 0.1 0.0 0.25.

(** ** Calls of the public contract, for statements about sequences *)

Inductive Call : Type :=
| CallAppraise (message : string)
| CallUpdateAffect (appraisal : AppraisalResult)
| CallDecay (seconds_elapsed : Q).

Definition run_call (now : Q) (self : AdvancedEmotionalState) (c : Call)
  : Result AdvancedEmotionalState :=
  match c with
  | CallAppraise message =>
      r <- appraise_message self message ;; Ok (snd r)
  | CallUpdateAffect appraisal => Ok (update_affect now self appraisal)
  | CallDecay seconds_elapsed => Ok (decay now self (Some seconds_elapsed))
  end.

Definition run_calls (now : Q) (calls : list Call) (self : AdvancedEmotionalState)
  : Result AdvancedEmotionalState :=
  foldM (run_call now) calls self.

(** ** Bounds of the data model *)

Definition in_unit (x : Q) : Prop := -1 <= x <= 1.

Definition affect_bounded (a : AffectiveDimensions) : Prop :=
  in_unit (valence a) /\ in_unit (arousal a) /\ in_unit (dominance a).

Definition activations_bounded (d : Activations) : Prop :=
  Forall (fun item => 0 <= snd item <= 1) d.

Definition inertia_valid (self : AdvancedEmotionalState) : Prop :=
  0 <= emotional_inertia self <= 1.

Definition state_bounded (self : AdvancedEmotionalState) : Prop :=
  affect_bounded (current_affect self) /\
  activations_bounded (system_activations self).

(** ** Invariant of the system-influence loop *)

(** The running sum stays inside the cone spanned by the largest
    coordinates of [SYSTEM_DIMENSIONS], scaled by the running total. *)
Definition influence_inv (acc : AffectiveDimensions * Q) : Prop :=
  let '(si, total) := acc in
  0 <= total /\
  (- (0.8 * total) <= valence si <= 0.8 * total) /\
  (- (0.9 * total) <= arousal si <= 0.9 * total) /\
  (- (0.7 * total) <= dominance si <= 0.7 * total).

(** ** A concrete state *)

(** The state the factory returns for its default arguments. *)
Definition initial_state : AdvancedEmotionalState :=
  mkState "character" (mkAffect 0.15 0.1 0.0) (mkAffect 0.15 0.1 0.0)
          (map (fun s => (s, 0.0)) AffectiveSystem.members)
          None 0.25 0 [] 50.

(** [self.current_affect = a], for stating scenarios. *)
Definition with_affect (self : AdvancedEmotionalState) (v a d : Q)
  : AdvancedEmotionalState :=
  set_current_affect self (mkAffect v a d).

(** The part of the gap between the current valence and the combined
    target that one [update_affect] call closes. *)
Definition valence_shift_fraction (now : Q) (self : AdvancedEmotionalState)
    (appraisal : AppraisalResult) : Q :=
  (valence (current_affect (update_affect now self appraisal))
   - valence (current_affect self))
  / (valence (combined_target self appraisal) - valence (current_affect self)).

(** An appraisal whose two valence fields are [p]; its derived target
    valence is [p] when [p] is in range. *)
Definition appraisal_of_pleasantness (p : Q) : AppraisalResult :=
  mkAppraisal 0 p 0 p 0 0 0 0 0 0.

(** ** Checks on the static tables *)

(** [name] is one of the ten fields of [AppraisalResult]. *)
Definition valid_field (name : string) : bool :=
  existsb (String.eqb name) APPRAISAL_FIELDS.

(** Every key of every effect dictionary names a field. *)
Definition effects_valid (effects : list (string * Q)) : bool :=
  forallb (fun item => valid_field (fst item)) effects.

Definition patterns_valid (patterns : list AppraisalPattern) : bool :=
  forallb (fun pattern => effects_valid (appraisal_effects pattern)) patterns.

(** No keyword of the pattern table occurs in [message_lower], the
    text that [message.lower()] returned: [kw in message_lower] is false
    for every keyword of every pattern. *)
Definition no_keyword_match (message_lower : string) : Prop :=
  forall pattern kw,
    In pattern APPRAISAL_PATTERNS -> In kw (keywords pattern) ->
    contains message_lower kw = false.

(** The same as a test, for concrete texts. *)
Definition no_keyword_matchb (message_lower : string) : bool :=
  forallb
    (fun pattern =>
       forallb (fun kw => negb (contains message_lower kw)) (keywords pattern))
    APPRAISAL_PATTERNS.

(** [self.system_activations.get(system.value, 0)] *)
Definition activation_of (self : AdvancedEmotionalState)
    (system : AffectiveSystem.t) : Q :=
  dict_get (system_activations self) system 0.

(** ** Invariant of the public contract *)

(** Affect and baseline in [-1,1], activations in [0,1], inertia in [0,1]. *)
Definition state_valid (self : AdvancedEmotionalState) : Prop :=
  state_bounded self /\
  affect_bounded (baseline_affect self) /\
  inertia_valid self.

(** A [decay] call whose elapsed time is at most 800 seconds, so that
    no branch of the rate selection exceeds 1. *)
Definition short_pause (c : Call) : Prop :=
  match c with
  | CallDecay seconds_elapsed => 0 <= seconds_elapsed <= 800
  | _ => True
  end.

(** ** The two strands of the appraisal loop *)

(** One pass of [appraise_message] over the patterns does two things
    that do not depend on each other: it accumulates effects into the
    appraisal, and it activates systems in the state.  The definitions
    below name each strand; [appraise_patterns_split] proves that the
    loop is their combination. *)

(** [weight] of a matching pattern, after the negativity amplification. *)
Definition pattern_weight (message_lower : string) (pattern : AppraisalPattern)
  : option Q :=
  let matches := count_matches (keywords pattern) message_lower in
  if (0 <? matches)%nat then
    let weight := Qmin 1.0 (inject_Z (Z.of_nat matches) * 0.3) in
    Some (if is_negative_pattern pattern then weight * 1.8 else weight)
  else None.

Definition appraise_effects (message_lower : string) (appraisal : AppraisalResult)
    (pattern : AppraisalPattern) : Result AppraisalResult :=
  match pattern_weight message_lower pattern with
  | Some weight => foldM (apply_effect weight) (appraisal_effects pattern) appraisal
  | None => Ok appraisal
  end.

(** The arguments of the [_activate_system] call a pattern makes, if any. *)
Definition pattern_event (message_lower : string) (pattern : AppraisalPattern)
  : list (AffectiveSystem.t * Q) :=
  match pattern_weight message_lower pattern, system_activation pattern with
  | Some weight, Some system =>
      let system_weight := weight * 0.5 in
      [(system,
        if is_negative_system system then system_weight * 1.5 else system_weight)]
  | _, _ => []
  end.

Definition activation_events (message_lower : string)
    (patterns : list AppraisalPattern) : list (AffectiveSystem.t * Q) :=
  flat_map (pattern_event message_lower) patterns.

Definition activate_all (events : list (AffectiveSystem.t * Q))
    (self : AdvancedEmotionalState) : AdvancedEmotionalState :=
  fold_left (fun s event => _activate_system s (fst event) (snd event)) events self.

(** The appraisal of a lowered text; it does not read the state. *)
Definition appraisal_of_lowered (message_lower : string)
  : Result AppraisalResult :=
  appraisal <- foldM (appraise_effects message_lower) APPRAISAL_PATTERNS
                     AppraisalResult_default ;;
  foldM clamp_field APPRAISAL_FIELDS appraisal.

(** The appraisal of a message. *)
Definition appraisal_of_message (message : string) : Result AppraisalResult :=
  appraisal_of_lowered (lower message).

(** ** Scenario messages *)

Definition gratitude_message : string := "Thank you so much, I am so grateful".

(** The factory state for baseline (-0.5, 0, 0): current affect and
    baseline coincide. *)
Definition negative_baseline_state : AdvancedEmotionalState :=
  mkState "character" (mkAffect (-0.5) 0 0) (mkAffect (-0.5) 0 0)
          (map (fun s => (s, 0.0)) AffectiveSystem.members)
          None 0.25 0 [] 50.

(** The factory state after one [update_affect] with a fully pleasant
    appraisal. *)
Definition pleased_state : AdvancedEmotionalState :=
  update_affect 0 initial_state (appraisal_of_pleasantness 1).

(** ** What "the first nearest label" means *)

(** [emotion] stands in [table] at an index whose coordinate is at
    distance [dist] from [dimensions]; no entry is nearer, and every
    earlier entry is strictly farther. *)
Definition is_first_nearest (dimensions : AffectiveDimensions)
    (table : list (EmotionLabel.t * AffectiveDimensions))
    (emotion : EmotionLabel.t) (dist : R) : Prop :=
  exists (i : nat) (coords : AffectiveDimensions),
    nth_error table i = Some (emotion, coords) /\
    dist = distance_to dimensions coords /\
    (forall j e c, nth_error table j = Some (e, c) ->
                   Rle dist (distance_to dimensions c)) /\
    (forall j e c, (j < i)%nat -> nth_error table j = Some (e, c) ->
                   Rlt dist (distance_to dimensions c)).

Definition sqrtQ (q : Q) : R := sqrt (Q2R q).

(** ** Dominant system and response modifier *)

(** [max(items, key=lambda x: x[1])]: the first item whose value is
    maximal; a later item replaces the running maximum only when its
    value is strictly greater. *)
Fixpoint max_item (best : AffectiveSystem.t * Q) (rest : Activations)
  : AffectiveSystem.t * Q :=
  match rest with
  | [] => best
  | item :: rest' =>
      if Qltb (snd best) (snd item) then max_item item rest'
      else max_item best rest'
  end.

Definition get_dominant_system (self : AdvancedEmotionalState)
  : option (AffectiveSystem.t * Q) :=
  match system_activations self with
  | [] => None
  | first :: rest =>
      let max_system := max_item first rest in
      if Qltb (snd max_system) 0.1 then None else Some max_system
  end.

Definition emotion_value (e : EmotionLabel.t) : string :=
  match e with
  | EmotionLabel.EXCITEMENT => "excitement"
  | EmotionLabel.JOY => "joy"
  | EmotionLabel.ENTHUSIASM => "enthusiasm"
  | EmotionLabel.DELIGHT => "delight"
  | EmotionLabel.CONTENTMENT => "contentment"
  | EmotionLabel.SERENITY => "serenity"
  | EmotionLabel.CALM => "calm"
  | EmotionLabel.PEACE => "peace"
  | EmotionLabel.ANGER => "anger"
  | EmotionLabel.FEAR => "fear"
  | EmotionLabel.ANXIETY => "anxiety"
  | EmotionLabel.FRUSTRATION => "frustration"
  | EmotionLabel.PANIC => "panic"
  | EmotionLabel.SADNESS => "sadness"
  | EmotionLabel.MELANCHOLY => "melancholy"
  | EmotionLabel.GRIEF => "grief"
  | EmotionLabel.DESPAIR => "despair"
  | EmotionLabel.BOREDOM => "boredom"
  | EmotionLabel.LOVE => "love"
  | EmotionLabel.COMPASSION => "compassion"
  | EmotionLabel.PRIDE => "pride"
  | EmotionLabel.SHAME => "shame"
  | EmotionLabel.GUILT => "guilt"
  | EmotionLabel.CONTEMPT => "contempt"
  | EmotionLabel.DISGUST => "disgust"
  | EmotionLabel.ENVY => "envy"
  | EmotionLabel.JEALOUSY => "jealousy"
  | EmotionLabel.GRATITUDE => "gratitude"
  | EmotionLabel.AWE => "awe"
  | EmotionLabel.CURIOSITY => "curiosity"
  | EmotionLabel.INTEREST => "interest"
  | EmotionLabel.SURPRISE => "surprise"
  | EmotionLabel.CONFUSION => "confusion"
  | EmotionLabel.DETERMINATION => "determination"
  | EmotionLabel.HOPE => "hope"
  | EmotionLabel.NEUTRAL => "neutral"
  end.

(** [system_descriptions.get(system, "")] of [get_response_modifier]. *)
Definition system_descriptions (system : AffectiveSystem.t) : string :=
  match system with
  | AffectiveSystem.SEEKING => "curious and explorative"
  | AffectiveSystem.RAGE => "frustrated or angered"
  | AffectiveSystem.FEAR => "cautious and wary"
  | AffectiveSystem.CARE => "nurturing and protective"
  | AffectiveSystem.PANIC_GRIEF => "experiencing a sense of loss"
  | AffectiveSystem.PLAY => "playful and lighthearted"
  | AffectiveSystem.LUST => "drawn to connection"
  end.

(** [sep.join(parts)] *)
Fixpoint join (sep : string) (parts : list string) : string :=
  match parts with
  | [] => ""
  | [p] => p
  | p :: rest => p ++ sep ++ join sep rest
  end.

(** [filter(None, modifiers)]: the empty strings are dropped. *)
Definition filter_nonempty (parts : list string) : list string :=
  filter (fun p => negb (p =? "")) parts.

(** [a > b] on the confidence, which is a real number. *)
Definition Rgtb (a b : R) : bool := if Rlt_dec b a then true else false.

(** The list [modifiers] that [get_response_modifier] builds, in the
    order of its [append] calls. *)
Definition response_modifiers (self : AdvancedEmotionalState) : list string :=
  let '(emotion, confidence) := get_emotion_label self in
  let dominant_system := get_dominant_system self in
  let affect := current_affect self in
  ((if Qltb 0.5 (valence affect) then ["feeling positively inclined"]
    else if Qltb (valence affect) (-0.5) then ["feeling negatively affected"]
    else [])
   ++ (if Qltb 0.5 (arousal affect) then ["in a heightened emotional state"]
       else if Qltb (arousal affect) (-0.3) then ["in a calm, low-energy state"]
       else [])
   ++ (if Qltb 0.5 (dominance affect) then ["feeling confident and in control"]
       else if Qltb (dominance affect) (-0.5) then ["feeling somewhat vulnerable"]
       else [])
   ++ (match dominant_system with
       | Some (system, intensity) =>
           if Qltb 0.3 intensity then [system_descriptions system] else []
       | None => []
       end)
   ++ (if Rgtb confidence 0.5%R
       then [String.append "experiencing " (emotion_value emotion)]
       else []))%list.

Definition get_response_modifier (self : AdvancedEmotionalState) : string :=
  match response_modifiers self with
  | [] => "[Emotional state: neutral]"
  | modifiers => "[Emotional state: " ++ join ", " (filter_nonempty modifiers) ++ "]"
  end.

(** ** Predicates for the further properties *)

(** The ten fields of an appraisal lie in [-1,1]. *)
Definition appraisal_bounded (a : AppraisalResult) : Prop :=
  in_unit (novelty a) /\ in_unit (pleasantness a) /\
  in_unit (goal_relevance a) /\ in_unit (goal_conduciveness a) /\
  in_unit (urgency a) /\ in_unit (control a) /\ in_unit (power a) /\
  in_unit (adjustment a) /\ in_unit (internal_standards a) /\
  in_unit (external_standards a).

(** The systems that the decay loop treats as negative. *)
Definition decays_slowly (system : AffectiveSystem.t) : Prop :=
  system = AffectiveSystem.RAGE \/ system = AffectiveSystem.FEAR \/
  system = AffectiveSystem.PANIC_GRIEF.

(** No pattern that triggers [system] has a keyword in [message_lower],
    the text that [message.lower()] returned. *)
Definition system_not_triggered (message_lower : string)
    (system : AffectiveSystem.t) : Prop :=
  forall pattern,
    In pattern APPRAISAL_PATTERNS ->
    system_activation pattern = Some system ->
    count_matches (keywords pattern) message_lower = 0%nat.

(** [n] calls of [_activate_system] with the same system and intensity. *)
Fixpoint activate_repeatedly (n : nat) (self : AdvancedEmotionalState)
    (system : AffectiveSystem.t) (intensity : Q) : AdvancedEmotionalState :=
  match n with
  | O => self
  | S n' =>
      activate_repeatedly n' (_activate_system self system intensity)
                          system intensity
  end.

(** The state of the factory for inertia 1. *)
Definition frozen_state : AdvancedEmotionalState :=
  mkState "character" (mkAffect 0.15 0.1 0.0) (mkAffect 0.15 0.1 0.0)
          (map (fun s => (s, 0.0)) AffectiveSystem.members)
          None 1 0 [] 50.

(** The entry that [_record_state] appends for a state. *)
Definition snapshot_of (now : Q) (self : AdvancedEmotionalState) : Snapshot :=
  {| timestamp := now;
     snap_valence := valence (current_affect self);
     snap_arousal := arousal (current_affect self);
     snap_dominance := dominance (current_affect self);
     systems := system_activations self |}.

(** The inner product of [a - b] and [b - c], the cross term of the
    triangle inequality. *)
Definition cross_term (a b c : AffectiveDimensions) : Q :=
  (valence a - valence b) * (valence b - valence c)
  + (arousal a - arousal b) * (arousal b - arousal c)
  + (dominance a - dominance b) * (dominance b - dominance c).

(** * Properties *)

(** ** Arithmetic helpers *)

Lemma Qltb_true (a b : Q) : Qltb a b = true <-> a < b.
Proof.
  unfold Qltb.
  destruct (Qlt_le_dec a b) as [H | H]; split; intro G; auto; try discriminate.
  exfalso. apply (Qlt_not_le _ _ G H).
Qed.

Lemma Qltb_false (a b : Q) : Qltb a b = false <-> b <= a.
Proof.
  unfold Qltb.
  destruct (Qlt_le_dec a b) as [H | H]; split; intro G; auto; try discriminate.
  exfalso. apply (Qlt_not_le _ _ H G).
Qed.

(** Case analysis on a float comparison, leaving the order fact. *)
Ltac case_Qltb a b :=
  let E := fresh "E" in
  destruct (Qltb a b) eqn:E;
  [ apply Qltb_true in E | apply Qltb_false in E ].

(** Division by a literal becomes multiplication by a literal. *)
Ltac qdiv := unfold Qdiv in *; cbn [Qinv Qnum Qden] in *.

Lemma clamp_unit (x : Q) : in_unit (Qmax (-1) (Qmin 1 x)).
Proof.
  unfold in_unit.
  destruct (Q.min_spec 1 x) as [[? E1] | [? E1]]; rewrite E1;
    destruct (Q.max_spec (-1) 1) as [[? E2] | [? E2]];
    destruct (Q.max_spec (-1) x) as [[? E3] | [? E3]];
    try rewrite E2; try rewrite E3; lra.
Qed.

Lemma clamp_unit_id (x : Q) : in_unit x -> Qmax (-1) (Qmin 1 x) == x.
Proof.
  unfold in_unit. intros [Hlo Hhi].
  rewrite (Q.min_r 1 x) by lra. apply Q.max_r. lra.
Qed.

Lemma clamp01 (x : Q) : 0 <= Qmax 0 (Qmin 1 x) <= 1.
Proof.
  destruct (Q.min_spec 1 x) as [[? E1] | [? E1]]; rewrite E1;
    destruct (Q.max_spec 0 1) as [[? E2] | [? E2]];
    destruct (Q.max_spec 0 x) as [[? E3] | [? E3]];
    try rewrite E2; try rewrite E3; lra.
Qed.

Lemma Qmin1_unit (r : Q) : 0 <= r -> 0 <= Qmin 1.0 r <= 1.
Proof.
  intro H. destruct (Q.min_spec 1.0 r) as [[? E] | [? E]]; rewrite E; lra.
Qed.

(** ** Vector operations *)

Lemma interpolate_unit (x y w : Q) :
  in_unit x -> in_unit y -> 0 <= w <= 1 -> in_unit (x * (1 - w) + y * w).
Proof. unfold in_unit. intros [? ?] [? ?] [? ?]. split; nra. Qed.

Lemma blend_bounded (a b : AffectiveDimensions) (w : Q) :
  affect_bounded a -> affect_bounded b -> 0 <= w <= 1 ->
  affect_bounded (blend a b w).
Proof.
  intros (Hv & Ha & Hd) (Hv' & Ha' & Hd') Hw.
  repeat split; cbn [blend valence arousal dominance];
    apply interpolate_unit; assumption.
Qed.

Lemma toward_unit (x b r : Q) :
  in_unit x -> in_unit b -> 0 <= r <= 1 -> in_unit (x + (b - x) * r).
Proof. unfold in_unit. intros [? ?] [? ?] [? ?]. split; nra. Qed.

Lemma decay_toward_bounded (a b : AffectiveDimensions) (r : Q) :
  affect_bounded a -> affect_bounded b -> 0 <= r <= 1 ->
  affect_bounded (decay_toward a b r).
Proof.
  intros (Hv & Ha & Hd) (Hv' & Ha' & Hd') Hr.
  repeat split; cbn [decay_toward valence arousal dominance];
    apply toward_unit; assumption.
Qed.

Lemma to_dimensions_bounded (a : AppraisalResult) :
  affect_bounded (to_dimensions a).
Proof.
  unfold affect_bounded, to_dimensions; cbn [valence arousal dominance].
  repeat split; apply clamp_unit.
Qed.

(** ** System influence is a weighted average *)

Lemma influence_step_inv (acc : AffectiveDimensions * Q)
    (item : AffectiveSystem.t * Q) :
  influence_inv acc -> influence_inv (influence_step acc item).
Proof.
  destruct acc as [si total], item as [system activation].
  unfold influence_inv, influence_step.
  intros (Ht & Hv & Ha & Hd).
  case_Qltb 0.1 activation; [ | tauto ].
  destruct system; cbn [SYSTEM_DIMENSIONS valence arousal dominance];
    repeat split; lra.
Qed.

Lemma influence_fold_inv (d : Activations) (acc : AffectiveDimensions * Q) :
  influence_inv acc -> influence_inv (fold_left influence_step d acc).
Proof.
  revert acc. induction d as [ | item d IH]; intros acc H; cbn [fold_left].
  - exact H.
  - apply IH, influence_step_inv, H.
Qed.

Lemma ratio_bound (x t c : Q) :
  0 < t -> - (c * t) <= x <= c * t -> - c <= x / t <= c.
Proof.
  intros Ht [Hlo Hhi]. split.
  - apply Qle_shift_div_l; [ exact Ht | lra ].
  - apply Qle_shift_div_r; [ exact Ht | lra ].
Qed.

Lemma system_influence_range (d : Activations) :
  (-0.8 <= valence (system_influence_of d) <= 0.8) /\
  (-0.9 <= arousal (system_influence_of d) <= 0.9) /\
  (-0.7 <= dominance (system_influence_of d) <= 0.7).
Proof.
  unfold system_influence_of.
  assert (H : influence_inv (fold_left influence_step d (mkAffect 0.0 0.0 0.0, 0))).
  { apply influence_fold_inv. unfold influence_inv; cbn. repeat split; lra. }
  destruct (fold_left influence_step d (mkAffect 0.0 0.0 0.0, 0)) as [si total].
  unfold influence_inv in H. destruct H as (Ht & Hv & Ha & Hd).
  case_Qltb 0 total; cbn [valence arousal dominance].
  - repeat split.
    all: try (apply (ratio_bound _ total 0.8); assumption).
    all: try (apply (ratio_bound _ total 0.9); assumption).
    all: try (apply (ratio_bound _ total 0.7); assumption).
  - repeat split; lra.
Qed.

Lemma system_influence_bounded (d : Activations) :
  affect_bounded (system_influence_of d).
Proof.
  destruct (system_influence_range d) as (Hv & Ha & Hd).
  unfold affect_bounded, in_unit. repeat split; lra.
Qed.

Lemma combined_target_bounded (self : AdvancedEmotionalState)
    (appraisal : AppraisalResult) :
  affect_bounded (combined_target self appraisal).
Proof.
  unfold combined_target.
  apply blend_bounded.
  - apply to_dimensions_bounded.
  - apply system_influence_bounded.
  - lra.
Qed.

(** ** The blend weight of [update_affect] *)

Lemma transition_resistance_cases (self : AdvancedEmotionalState)
    (ct : AffectiveDimensions) :
  let r := 1 - emotional_inertia self in
  let v := valence (current_affect self) in
  (v < -0.3 /\ 0 < valence ct /\ transition_resistance self ct = r * 0.4) \/
  (0.3 < v /\ valence ct < 0 /\ transition_resistance self ct = r * 1.3) \/
  (~ (v < -0.3 /\ 0 < valence ct) /\ ~ (0.3 < v /\ valence ct < 0) /\
   transition_resistance self ct = r).
Proof.
  cbv zeta. unfold transition_resistance.
  case_Qltb (valence (current_affect self)) (-0.3);
    case_Qltb 0 (valence ct);
    case_Qltb 0.3 (valence (current_affect self));
    case_Qltb (valence ct) 0; cbn [andb];
    try (left; repeat split; (assumption || reflexivity));
    try (right; left; repeat split; (assumption || reflexivity));
    right; right; repeat split; try reflexivity; intros [? ?]; lra.
Qed.

Lemma transition_weight_unit (self : AdvancedEmotionalState)
    (ct : AffectiveDimensions) :
  inertia_valid self -> 0 <= Qmin 1.0 (transition_resistance self ct) <= 1.
Proof.
  unfold inertia_valid. intros [Hlo Hhi].
  apply Qmin1_unit.
  destruct (transition_resistance_cases self ct)
    as [(_ & _ & E) | [(_ & _ & E) | (_ & _ & E)]]; rewrite E; lra.
Qed.

Lemma current_affect_record_state (now : Q) (self : AdvancedEmotionalState) :
  current_affect (_record_state now self) = current_affect self.
Proof.
  unfold _record_state.
  destruct (max_history self <? _)%Z; reflexivity.
Qed.

Lemma system_activations_record_state (now : Q) (self : AdvancedEmotionalState) :
  system_activations (_record_state now self) = system_activations self.
Proof.
  unfold _record_state.
  destruct (max_history self <? _)%Z; reflexivity.
Qed.

Lemma current_affect_update_affect (now : Q) (self : AdvancedEmotionalState)
    (appraisal : AppraisalResult) :
  current_affect (update_affect now self appraisal) =
  blend (current_affect self) (combined_target self appraisal)
        (Qmin 1.0 (transition_resistance self (combined_target self appraisal))).
Proof.
  unfold update_affect. rewrite current_affect_record_state. reflexivity.
Qed.

Lemma system_activations_update_affect (now : Q) (self : AdvancedEmotionalState)
    (appraisal : AppraisalResult) :
  system_activations (update_affect now self appraisal) = system_activations self.
Proof.
  unfold update_affect. rewrite system_activations_record_state. reflexivity.
Qed.

Lemma update_affect_bounded (now : Q) (self : AdvancedEmotionalState)
    (appraisal : AppraisalResult) :
  affect_bounded (current_affect self) -> inertia_valid self ->
  affect_bounded (current_affect (update_affect now self appraisal)).
Proof.
  intros Hc Hi. rewrite current_affect_update_affect.
  apply blend_bounded.
  - exact Hc.
  - apply combined_target_bounded.
  - apply transition_weight_unit, Hi.
Qed.

Lemma default_state_initial : default_state = Ok initial_state.
Proof. reflexivity. Qed.

Lemma update_affect_valence_step (now : Q) (self : AdvancedEmotionalState)
    (appraisal : AppraisalResult) :
  valence (current_affect (update_affect now self appraisal))
  - valence (current_affect self)
  == Qmin 1.0 (transition_resistance self (combined_target self appraisal))
     * (valence (combined_target self appraisal) - valence (current_affect self)).
Proof.
  rewrite current_affect_update_affect. cbn [blend valence]. ring.
Qed.

Lemma valence_shift_fraction_weight (now : Q) (self : AdvancedEmotionalState)
    (appraisal : AppraisalResult) :
  ~ valence (combined_target self appraisal) - valence (current_affect self) == 0 ->
  valence_shift_fraction now self appraisal
  == Qmin 1.0 (transition_resistance self (combined_target self appraisal)).
Proof.
  intro Hgap. unfold valence_shift_fraction.
  rewrite update_affect_valence_step.
  apply Qdiv_mult_l, Hgap.
Qed.

(** With target valence 0.8 the combined target stays positive whatever
    the system activations are. *)
Lemma combined_target_positive (self : AdvancedEmotionalState)
    (appraisal : AppraisalResult) :
  valence (to_dimensions appraisal) == 0.8 ->
  0.16 <= valence (combined_target self appraisal) <= 0.8.
Proof.
  intro Ht. unfold combined_target. cbn [blend valence].
  destruct (system_influence_range (system_activations self)) as (Hv & _ & _).
  rewrite Ht. lra.
Qed.

Lemma combined_target_same_activations (s1 s2 : AdvancedEmotionalState)
    (appraisal : AppraisalResult) :
  system_activations s1 = system_activations s2 ->
  combined_target s1 appraisal = combined_target s2 appraisal.
Proof. unfold combined_target. intros ->. reflexivity. Qed.

Lemma contamination_instance (now : Q) (s1 s2 : AdvancedEmotionalState)
    (appraisal : AppraisalResult) :
  valence (current_affect s1) == -0.5 ->
  valence (current_affect s2) == 0.0 ->
  emotional_inertia s1 == emotional_inertia s2 ->
  inertia_valid s1 ->
  system_activations s1 = system_activations s2 ->
  valence (to_dimensions appraisal) == 0.8 ->
  valence (current_affect (update_affect now s1 appraisal))
  < valence (current_affect (update_affect now s2 appraisal)).
Proof.
  intros Hv1 Hv2 Hi [Hlo Hhi] Hact Ht.
  pose proof (update_affect_valence_step now s1 appraisal) as U1.
  pose proof (update_affect_valence_step now s2 appraisal) as U2.
  rewrite <- (combined_target_same_activations s1 s2 appraisal Hact) in U2.
  pose proof (combined_target_positive s1 appraisal Ht) as [Hc1 Hc2].
  set (ct := combined_target s1 appraisal) in *.
  destruct (transition_resistance_cases s1 ct)
    as [(_ & _ & E1) | [(A & B & _) | (N & _ & _)]];
    [ | lra | exfalso; apply N; split; lra ].
  destruct (transition_resistance_cases s2 ct)
    as [(A & _ & _) | [(A & _ & _) | (_ & _ & E2)]]; [ lra | lra | ].
  rewrite E1 in U1. rewrite E2 in U2.
  rewrite (Q.min_r 1.0 ((1 - emotional_inertia s1) * 0.4)) in U1 by lra.
  rewrite (Q.min_r 1.0 (1 - emotional_inertia s2)) in U2 by lra.
  set (p1 := valence (current_affect (update_affect now s1 appraisal))) in *.
  set (p2 := valence (current_affect (update_affect now s2 appraisal))) in *.
  set (c := valence ct) in *.
  set (i1 := emotional_inertia s1) in *.
  set (i2 := emotional_inertia s2) in *.
  set (v1 := valence (current_affect s1)) in *.
  set (v2 := valence (current_affect s2)) in *.
  assert (X1 : i1 * v1 == i1 * -0.5) by (rewrite Hv1; reflexivity).
  assert (X2 : i2 * v2 == 0) by (rewrite Hv2; ring).
  assert (X3 : i2 * c == i1 * c) by (rewrite Hi; reflexivity).
  assert (X4 : 0 <= (1 - i1) * (c - 0.16)) by nra.
  lra.
Qed.

Lemma upward_weight_le (self : AdvancedEmotionalState) (ct : AffectiveDimensions) :
  inertia_valid self ->
  0 < valence ct ->
  Qmin 1.0 (transition_resistance self ct) <= 1 - emotional_inertia self.
Proof.
  intros [Hlo Hhi] Hc.
  destruct (transition_resistance_cases self ct)
    as [(_ & _ & E) | [(_ & B & _) | (_ & _ & E)]]; [ | lra | ];
    rewrite E; eapply Qle_trans; [ apply Q.le_min_r | lra | apply Q.le_min_r | lra ].
Qed.

Lemma downward_weight_ge (self : AdvancedEmotionalState) (ct : AffectiveDimensions) :
  inertia_valid self ->
  valence ct < 0 ->
  1 - emotional_inertia self <= Qmin 1.0 (transition_resistance self ct).
Proof.
  intros [Hlo Hhi] Hc.
  destruct (transition_resistance_cases self ct)
    as [(_ & B & _) | [(_ & _ & E) | (_ & _ & E)]]; [ lra | | ];
    rewrite E; apply Q.min_glb; lra.
Qed.

Lemma contaminated_weight_lt (self : AdvancedEmotionalState)
    (ct : AffectiveDimensions) :
  inertia_valid self ->
  emotional_inertia self < 1 ->
  valence (current_affect self) < -0.3 ->
  0 < valence ct ->
  Qmin 1.0 (transition_resistance self ct) < 1 - emotional_inertia self.
Proof.
  intros [Hlo Hhi] Hlt Hv Hc.
  destruct (transition_resistance_cases self ct)
    as [(_ & _ & E) | [(A & _ & _) | (N & _ & _)]];
    [ | lra | exfalso; apply N; split; assumption ].
  rewrite E. eapply Qle_lt_trans; [ apply Q.le_min_r | lra ].
Qed.

(** When the two weights differ: a contamination branch must apply, and
    the cap at 1 must not absorb it. *)
Lemma weights_strict_iff (s_neg s_pos : AdvancedEmotionalState)
    (ct_up ct_down : AffectiveDimensions) :
  emotional_inertia s_neg == emotional_inertia s_pos ->
  inertia_valid s_neg ->
  valence (current_affect s_neg) < 0 ->
  0 < valence ct_up ->
  0 < valence (current_affect s_pos) ->
  valence ct_down < 0 ->
  Qmin 1.0 (transition_resistance s_neg ct_up)
  < Qmin 1.0 (transition_resistance s_pos ct_down)
  <->
  emotional_inertia s_neg < 1 /\
  (valence (current_affect s_neg) < -0.3 \/
   (0.3 < valence (current_affect s_pos) /\ 0 < emotional_inertia s_neg)).
Proof.
  intros Hi [Hlo Hhi] Hn Hup Hp Hdown.
  pose proof (Q.min_spec 1.0 (transition_resistance s_neg ct_up)) as Mu.
  pose proof (Q.min_spec 1.0 (transition_resistance s_pos ct_down)) as Md.
  destruct (transition_resistance_cases s_neg ct_up)
    as [(A & _ & Eu) | [(A & _ & _) | (A & _ & Eu)]]; [ | lra | ];
    (destruct (transition_resistance_cases s_pos ct_down)
       as [(B & _ & _) | [(B & _ & Ed) | (_ & B & Ed)]]; [ lra | | ]);
    rewrite Eu in Mu |- *; rewrite Ed in Md |- *;
    set (wu := Qmin 1.0 _) in *; set (wd := Qmin 1.0 _) in *;
    lra.
Qed.

(** ** C10: [update_affect] keeps the affect in range *)

(** C10. For every state whose current affect lies in [-1,1] and whose
    system activations lie in [0,1] (the inertia being in [0,1] as its
    field declares), and for every appraisal, the affect that
    [update_affect] produces has its three components in [-1,1].  The
    three reasons are part of the statement: [to_dimensions] clamps the
    target, the system influence is in range, and the blend weight
    [min(1.0, transition_resistance)] is in [0,1]; [blend] itself is the
    plain interpolation and clamps nothing. *)
Theorem update_affect_preserves_affect_bounds
    (now : Q) (self : AdvancedEmotionalState) (appraisal : AppraisalResult) :
  affect_bounded (current_affect self) ->
  activations_bounded (system_activations self) ->
  inertia_valid self ->
  affect_bounded (to_dimensions appraisal) /\
  affect_bounded (system_influence_of (system_activations self)) /\
  0 <= Qmin 1.0 (transition_resistance self (combined_target self appraisal)) <= 1 /\
  current_affect (update_affect now self appraisal)
  = blend (current_affect self) (combined_target self appraisal)
          (Qmin 1.0 (transition_resistance self (combined_target self appraisal))) /\
  affect_bounded (current_affect (update_affect now self appraisal)).
Proof.
  intros Hc _ Hi.
  split; [ apply to_dimensions_bounded | ].
  split; [ apply system_influence_bounded | ].
  split; [ apply transition_weight_unit, Hi | ].
  split; [ apply current_affect_update_affect | ].
  apply update_affect_bounded; assumption.
Qed.

Lemma update_affect_preserves_affect_bounds_witness :
  affect_bounded
    (current_affect
       (update_affect 0 initial_state (appraisal_of_pleasantness 0.8))).
Proof.
  apply (update_affect_preserves_affect_bounds
           0 initial_state (appraisal_of_pleasantness 0.8)).
  - vm_compute. repeat split; discriminate.
  - vm_compute. repeat constructor; discriminate.
  - vm_compute. split; discriminate.
Defined.

(** ** C1: contamination asymmetry *)

(** C1, as stated, fails in its general sentence: a state at valence
    -0.2 moving toward a positive target and a state at valence +0.2
    moving toward the mirrored negative target, with the same inertia,
    make mirrored steps.  Neither contamination branch applies between
    -0.3 and 0.3, both close three quarters of the gap, and improving
    the mood is not harder than worsening it. *)
Lemma mild_states_shift_alike :
  valence
    (current_affect
       (update_affect 0 (with_affect initial_state (-0.2) 0.1 0.0)
                      (appraisal_of_pleasantness 0.8))) == 0.31 /\
  valence
    (current_affect
       (update_affect 0 (with_affect initial_state 0.2 0.1 0.0)
                      (appraisal_of_pleasantness (-0.8)))) == -0.31 /\
  valence_shift_fraction 0 (with_affect initial_state (-0.2) 0.1 0.0)
                         (appraisal_of_pleasantness 0.8) == 0.75 /\
  valence_shift_fraction 0 (with_affect initial_state 0.2 0.1 0.0)
                         (appraisal_of_pleasantness (-0.8)) == 0.75 /\
  ~ valence_shift_fraction 0 (with_affect initial_state (-0.2) 0.1 0.0)
                           (appraisal_of_pleasantness 0.8)
    < valence_shift_fraction 0 (with_affect initial_state 0.2 0.1 0.0)
                             (appraisal_of_pleasantness (-0.8)).
Proof.
  repeat split; try (vm_compute; reflexivity).
  vm_compute. discriminate.
Qed.

(** C1, amended. Two states that differ only in their current valence,
    -0.5 and 0.0, receive the same appraisal whose derived target valence
    is 0.8: after [update_affect] the first has the strictly lower
    valence.  More generally, for one and the same inertia, the fraction
    of the gap to the combined target that a negative state closes when
    the target is positive never exceeds the fraction a positive state
    closes when the target is negative.  It is strictly smaller exactly
    when the inertia is below 1 and a contamination branch applies: the
    negative state is below -0.3, or the positive state is above 0.3 and
    the inertia is above 0 (at inertia 0 the cap [min(1.0, ...)] absorbs
    the factor 1.3). *)
Theorem contamination_asymmetry :
  (forall (now : Q) (s1 s2 : AdvancedEmotionalState) (appraisal : AppraisalResult),
      valence (current_affect s1) == -0.5 ->
      valence (current_affect s2) == 0.0 ->
      arousal (current_affect s1) == arousal (current_affect s2) ->
      dominance (current_affect s1) == dominance (current_affect s2) ->
      emotional_inertia s1 == emotional_inertia s2 ->
      inertia_valid s1 ->
      system_activations s1 = system_activations s2 ->
      valence (to_dimensions appraisal) == 0.8 ->
      valence (current_affect (update_affect now s1 appraisal))
      < valence (current_affect (update_affect now s2 appraisal)))
  /\
  (forall (now : Q) (s_neg s_pos : AdvancedEmotionalState)
          (a_up a_down : AppraisalResult),
      emotional_inertia s_neg == emotional_inertia s_pos ->
      inertia_valid s_neg ->
      valence (current_affect s_neg) < 0 ->
      0 < valence (combined_target s_neg a_up) ->
      0 < valence (current_affect s_pos) ->
      valence (combined_target s_pos a_down) < 0 ->
      valence_shift_fraction now s_neg a_up
      <= valence_shift_fraction now s_pos a_down
      /\
      (valence (current_affect s_neg) < -0.3 ->
       emotional_inertia s_neg < 1 ->
       valence_shift_fraction now s_neg a_up
       < valence_shift_fraction now s_pos a_down)
      /\
      (valence_shift_fraction now s_neg a_up
       < valence_shift_fraction now s_pos a_down
       <->
       emotional_inertia s_neg < 1 /\
       (valence (current_affect s_neg) < -0.3 \/
        (0.3 < valence (current_affect s_pos) /\ 0 < emotional_inertia s_neg)))).
Proof.
  split.
  - intros now s1 s2 appraisal Hv1 Hv2 _ _ Hi Hval Hact Ht.
    apply contamination_instance; assumption.
  - intros now s_neg s_pos a_up a_down Hi Hval Hn Hup Hp Hdown.
    assert (Hval' : inertia_valid s_pos).
    { unfold inertia_valid in *. rewrite <- Hi. exact Hval. }
    rewrite (valence_shift_fraction_weight now s_neg a_up) by lra.
    rewrite (valence_shift_fraction_weight now s_pos a_down) by lra.
    pose proof (downward_weight_ge s_pos _ Hval' Hdown) as Hd.
    split; [ | split ].
    + pose proof (upward_weight_le s_neg _ Hval Hup) as Hu. lra.
    + intros Hneg Hlt.
      pose proof (contaminated_weight_lt s_neg _ Hval Hlt Hneg Hup) as Hu. lra.
    + apply weights_strict_iff; assumption.
Qed.

Lemma contamination_asymmetry_witness :
  valence
    (current_affect
       (update_affect 0 (with_affect initial_state (-0.5) 0.1 0.0)
                      (appraisal_of_pleasantness 0.8)))
  < valence
      (current_affect
         (update_affect 0 (with_affect initial_state 0.0 0.1 0.0)
                        (appraisal_of_pleasantness 0.8)))
  /\
  valence_shift_fraction 0 (with_affect initial_state (-0.5) 0.1 0.0)
                         (appraisal_of_pleasantness 0.8)
  < valence_shift_fraction 0 (with_affect initial_state 0.5 0.1 0.0)
                           (appraisal_of_pleasantness (-0.8)).
Proof.
  destruct contamination_asymmetry as [Hinstance Hgeneral].
  split.
  - apply Hinstance.
    + reflexivity.
    + reflexivity.
    + reflexivity.
    + reflexivity.
    + reflexivity.
    + vm_compute. split; discriminate.
    + reflexivity.
    + reflexivity.
  - destruct (Hgeneral 0 (with_affect initial_state (-0.5) 0.1 0.0)
                       (with_affect initial_state 0.5 0.1 0.0)
                       (appraisal_of_pleasantness 0.8)
                       (appraisal_of_pleasantness (-0.8)))
      as (_ & _ & Hexact).
    + reflexivity.
    + vm_compute. split; discriminate.
    + reflexivity.
    + reflexivity.
    + reflexivity.
    + reflexivity.
    + apply Hexact. split; [ reflexivity | left; reflexivity ].
Defined.

(** ** C4: [blend] and [decay_toward] do not clamp *)

(** C4, as stated, fails: with a weight or rate of 2 both operations
    leave [-1,1] although both arguments are inside it. *)
Lemma blend_decay_toward_unclamped :
  ~ affect_bounded (blend (mkAffect 0 0 0) (mkAffect 1 0 0) 2) /\
  ~ affect_bounded (decay_toward (mkAffect 0 0 0) (mkAffect 1 0 0) 2).
Proof.
  split; intros ((_ & Hhi) & _); cbn in Hhi; lra.
Qed.

(** C4, amended. [blend] and [decay_toward] return the interpolation as
    computed, without clamping; every component of the result lies in
    [-1,1] whenever both vectors lie in [-1,1] and the weight or rate lies
    in [0,1]. *)
Theorem blend_decay_toward_bounded (a b : AffectiveDimensions) (w : Q) :
  affect_bounded a -> affect_bounded b -> 0 <= w <= 1 ->
  affect_bounded (blend a b w) /\ affect_bounded (decay_toward a b w).
Proof.
  intros Ha Hb Hw. split.
  - apply blend_bounded; assumption.
  - apply decay_toward_bounded; assumption.
Qed.

Lemma blend_decay_toward_bounded_witness :
  affect_bounded (blend (mkAffect 0.8 0.6 0.4) (mkAffect (-0.5) 0.6 (-0.4)) 0.4) /\
  affect_bounded
    (decay_toward (mkAffect 0.8 0.6 0.4) (mkAffect (-0.5) 0.6 (-0.4)) 0.4).
Proof.
  apply (blend_decay_toward_bounded
           (mkAffect 0.8 0.6 0.4) (mkAffect (-0.5) 0.6 (-0.4)) 0.4).
  - vm_compute. repeat split; discriminate.
  - vm_compute. repeat split; discriminate.
  - vm_compute. split; discriminate.
Defined.

(** ** C7: what the constructor validates *)

(** C7, as stated, fails: a baseline valence of 2 is accepted and kept. *)
Lemma baseline_out_of_range_accepted :
  exists self,
    create_advanced_emotional_state 0 "gandalf" 2 0 0 0.25 = Ok self /\
    valence (baseline_affect self) == 2 /\
    valence (current_affect self) == 2.
Proof.
  eexists. split; [ reflexivity | ]. split; reflexivity.
Qed.

(** C7, amended. Construction is rejected with a validation error
    exactly when the emotional inertia is outside [0,1]; the three
    baseline components are not validated and are stored as given. *)
Theorem construction_validates_inertia_only
    (now : Q) (character_id : string) (bv ba bd inertia : Q) :
  (0 <= inertia <= 1 ->
   exists self,
     create_advanced_emotional_state now character_id bv ba bd inertia = Ok self /\
     baseline_affect self = mkAffect bv ba bd /\
     current_affect self = mkAffect bv ba bd /\
     emotional_inertia self = inertia) /\
  (~ 0 <= inertia <= 1 ->
   create_advanced_emotional_state now character_id bv ba bd inertia
   = Raise (ValidationError "emotional_inertia")).
Proof.
  unfold create_advanced_emotional_state, AdvancedEmotionalState_init.
  split.
  - intros [Hlo Hhi].
    assert (E1 : Qle_bool 0.0 inertia = true) by (apply Qle_bool_iff; lra).
    assert (E2 : Qle_bool inertia 1.0 = true) by (apply Qle_bool_iff; lra).
    rewrite E1, E2. cbn [andb].
    eexists. split; [ reflexivity | ]. repeat split.
  - intro Hout.
    destruct (Qle_bool 0.0 inertia) eqn:E1; cbn [andb]; [ | reflexivity ].
    destruct (Qle_bool inertia 1.0) eqn:E2; [ | reflexivity ].
    exfalso. apply Hout.
    apply Qle_bool_iff in E1. apply Qle_bool_iff in E2. split; lra.
Qed.

Lemma construction_validates_inertia_only_witness :
  (exists self,
      create_advanced_emotional_state 0 "gandalf" 0.15 0.1 0.0 0.25 = Ok self /\
      baseline_affect self = mkAffect 0.15 0.1 0.0 /\
      current_affect self = mkAffect 0.15 0.1 0.0 /\
      emotional_inertia self = 0.25) /\
  create_advanced_emotional_state 0 "gandalf" 0.15 0.1 0.0 1.5
  = Raise (ValidationError "emotional_inertia").
Proof.
  split.
  - apply (construction_validates_inertia_only 0 "gandalf" 0.15 0.1 0.0 0.25).
    vm_compute. split; discriminate.
  - apply (construction_validates_inertia_only 0 "gandalf" 0.15 0.1 0.0 1.5).
    vm_compute. intros [_ H]. apply H. reflexivity.
Defined.

(** ** Distances *)

Lemma Qsquare_nonneg (x : Q) : 0 <= x ^ 2.
Proof. nra. Qed.

Lemma distance_sq_nonneg (a b : AffectiveDimensions) : 0 <= distance_sq a b.
Proof.
  unfold distance_sq.
  pose proof (Qsquare_nonneg (valence a - valence b)).
  pose proof (Qsquare_nonneg (arousal a - arousal b)).
  pose proof (Qsquare_nonneg (dominance a - dominance b)).
  lra.
Qed.

Lemma Q2R_nonneg (x : Q) : 0 <= x -> (0 <= Q2R x)%R.
Proof.
  intro H. replace 0%R with (Q2R 0) by (unfold Q2R; cbn; lra).
  apply Qle_Rle, H.
Qed.

Lemma sqrt_Q2R_lt (x y : Q) :
  0 <= x -> x < y -> (sqrt (Q2R x) < sqrt (Q2R y))%R.
Proof.
  intros Hx Hxy. apply sqrt_lt_1_alt. split.
  - apply Q2R_nonneg, Hx.
  - apply Qlt_Rlt, Hxy.
Qed.

Lemma sqrt_Q2R_le (x y : Q) : x <= y -> (sqrt (Q2R x) <= sqrt (Q2R y))%R.
Proof. intro Hxy. apply sqrt_le_1_alt, Qle_Rle, Hxy. Qed.

Lemma distance_to_lt (a b c d : AffectiveDimensions) :
  distance_sq a b < distance_sq c d -> (distance_to a b < distance_to c d)%R.
Proof. intro H. apply sqrt_Q2R_lt; [ apply distance_sq_nonneg | exact H ]. Qed.

Lemma distance_to_le (a b c d : AffectiveDimensions) :
  distance_sq a b <= distance_sq c d -> (distance_to a b <= distance_to c d)%R.
Proof. intro H. apply sqrt_Q2R_le, H. Qed.

(** ** Homeostatic decay *)

Lemma decay_toward_distance_sq (x b : AffectiveDimensions) (r : Q) :
  distance_sq (decay_toward x b r) b == (1 - r) ^ 2 * distance_sq x b.
Proof.
  unfold distance_sq, decay_toward. cbn [valence arousal dominance]. ring.
Qed.

Lemma decay_toward_distance_le (x b : AffectiveDimensions) (r : Q) :
  0 <= r <= 2 ->
  (distance_to (decay_toward x b r) b <= distance_to x b)%R.
Proof.
  intros [Hlo Hhi]. apply distance_to_le.
  rewrite decay_toward_distance_sq.
  pose proof (distance_sq_nonneg x b) as Hd.
  assert (H1 : (1 - r) ^ 2 <= 1) by nra.
  nra.
Qed.

(** A rate in (0,1] never moves the affect away from the baseline. *)
Lemma decay_toward_monotone (x b : AffectiveDimensions) (r : Q) :
  0 < r <= 1 ->
  (distance_to (decay_toward x b r) b <= distance_to x b)%R.
Proof. intros [Hlo Hhi]. apply decay_toward_distance_le. lra. Qed.

Lemma current_affect_decay (now : Q) (self : AdvancedEmotionalState) (t : Q) :
  current_affect (decay now self (Some t))
  = decay_toward (current_affect self) (baseline_affect self)
                 (decay_rate_of self t).
Proof. reflexivity. Qed.

Lemma baseline_affect_decay (now : Q) (self : AdvancedEmotionalState)
    (t : option Q) :
  baseline_affect (decay now self t) = baseline_affect self.
Proof. reflexivity. Qed.

Lemma system_activations_decay (now : Q) (self : AdvancedEmotionalState) (t : Q) :
  system_activations (decay now self (Some t))
  = map (decay_activation (decay_rate_of self t)) (system_activations self).
Proof. reflexivity. Qed.

Lemma arousal_factor_ge_1 (a : Q) : 1 <= 1.0 + Qmax 0 a * 0.5.
Proof.
  destruct (Q.max_spec 0 a) as [[? E] | [? E]]; rewrite E; lra.
Qed.

(** The three branches of the rate selection, for [base = 0.05 * (t / 60)]. *)
Lemma decay_rate_cases (self : AdvancedEmotionalState) (t : Q) :
  let base := 0.05 * (t / 60.0) in
  let v := valence (current_affect self) in
  (v < -0.2 /\
   decay_rate_of self t
   = base * 0.4 / (1.0 + Qmax 0 (arousal (current_affect self)) * 0.5)) \/
  (-0.2 <= v /\ 0.2 < v /\ decay_rate_of self t = base * 1.5) \/
  (-0.2 <= v /\ v <= 0.2 /\ decay_rate_of self t = base).
Proof.
  cbv zeta. unfold decay_rate_of.
  case_Qltb (valence (current_affect self)) (-0.2); [ left; split; auto | ].
  case_Qltb 0.2 (valence (current_affect self)).
  - right; left; repeat split; auto.
  - right; right; repeat split; auto.
Qed.

Lemma slow_rate_range (base af : Q) :
  0 <= base -> 1 <= af -> 0 <= base * 0.4 / af <= base * 0.4.
Proof.
  intros Hb Haf. split.
  - apply Qle_shift_div_l; [ lra | nra ].
  - apply Qle_shift_div_r; [ lra | nra ].
Qed.

(** Up to 800 seconds the rate stays in [0,1]. *)
Lemma decay_rate_unit (self : AdvancedEmotionalState) (t : Q) :
  0 <= t <= 800 -> 0 <= decay_rate_of self t <= 1.
Proof.
  intros [Hlo Hhi].
  assert (Hb : 0 <= 0.05 * (t / 60.0) <= 2 # 3) by (qdiv; lra).
  destruct (decay_rate_cases self t) as [(_ & E) | [(_ & _ & E) | (_ & _ & E)]];
    rewrite E.
  - pose proof (slow_rate_range (0.05 * (t / 60.0)) _ (proj1 Hb)
                  (arousal_factor_ge_1 (arousal (current_affect self)))) as Hr.
    lra.
  - lra.
  - lra.
Qed.

(** ** Loops that may raise *)

Lemma foldM_ok {A B : Type} (body : A -> B -> Result A) (xs : list B) :
  (forall x acc, In x xs -> exists acc', body acc x = Ok acc') ->
  forall acc, exists acc', foldM body xs acc = Ok acc'.
Proof.
  induction xs as [ | x xs IH]; intros Hbody acc; cbn [foldM].
  - eexists; reflexivity.
  - destruct (Hbody x acc (or_introl eq_refl)) as [acc1 E]. rewrite E. cbn [bind].
    apply IH. intros y acc2 Hy. apply Hbody. right; exact Hy.
Qed.

Lemma foldM_invariant {A B : Type} (P : A -> Prop) (body : A -> B -> Result A)
    (xs : list B) :
  (forall x acc acc', In x xs -> P acc -> body acc x = Ok acc' -> P acc') ->
  forall acc acc', P acc -> foldM body xs acc = Ok acc' -> P acc'.
Proof.
  induction xs as [ | x xs IH]; intros Hbody acc acc' HP E; cbn [foldM] in E.
  - injection E as <-. exact HP.
  - destruct (body acc x) as [acc1 | e] eqn:E1; cbn [bind] in E; [ | discriminate ].
    apply (IH (fun y a a' Hy => Hbody y a a' (or_intror Hy)) acc1 acc');
      [ | exact E ].
    apply (Hbody x acc acc1); [ left; reflexivity | exact HP | exact E1 ].
Qed.

Lemma foldM_unchanged {A B : Type} (body : A -> B -> Result A) (xs : list B) :
  (forall x acc, In x xs -> body acc x = Ok acc) ->
  forall acc, foldM body xs acc = Ok acc.
Proof.
  induction xs as [ | x xs IH]; intros Hbody acc; cbn [foldM].
  - reflexivity.
  - rewrite (Hbody x acc (or_introl eq_refl)). cbn [bind].
    apply IH. intros y acc1 Hy. apply Hbody. right; exact Hy.
Qed.

(** ** Attribute access never fails on the tables *)

Lemma getattr_ok (a : AppraisalResult) (name : string) :
  valid_field name = true -> exists v, getattr a name = Ok v.
Proof.
  unfold valid_field, APPRAISAL_FIELDS, getattr. cbn [existsb].
  intro H.
  repeat match goal with
         | |- context [if ?b then _ else _] =>
             destruct b eqn:?; [ eexists; reflexivity | ]
         end.
  cbn in H. discriminate.
Qed.

Lemma apply_effect_ok (weight : Q) (a : AppraisalResult) (item : string * Q) :
  valid_field (fst item) = true -> exists a', apply_effect weight a item = Ok a'.
Proof.
  destruct item as [dim effect]. cbn [fst]. intro H.
  unfold apply_effect.
  destruct (getattr_ok a dim H) as [v E]. rewrite E. cbn [bind].
  eexists; reflexivity.
Qed.

Lemma apply_effects_ok (weight : Q) (effects : list (string * Q))
    (a : AppraisalResult) :
  effects_valid effects = true ->
  exists a', foldM (apply_effect weight) effects a = Ok a'.
Proof.
  unfold effects_valid. rewrite forallb_forall. intro H.
  apply foldM_ok. intros item acc Hin. apply apply_effect_ok, H, Hin.
Qed.

Lemma appraise_pattern_ok (message_lower : string)
    (acc : AppraisalResult * AdvancedEmotionalState) (pattern : AppraisalPattern) :
  effects_valid (appraisal_effects pattern) = true ->
  exists acc', appraise_pattern message_lower acc pattern = Ok acc'.
Proof.
  intro Hvalid. destruct acc as [appraisal self]. unfold appraise_pattern.
  destruct (0 <? count_matches (keywords pattern) message_lower)%nat;
    [ | eexists; reflexivity ].
  match goal with
  | |- context [foldM (apply_effect ?w) ?effects ?a] =>
      destruct (apply_effects_ok w effects a Hvalid) as [a' E]; rewrite E
  end.
  cbn [bind].
  destruct (system_activation pattern); eexists; reflexivity.
Qed.

Lemma patterns_valid_table : patterns_valid APPRAISAL_PATTERNS = true.
Proof. vm_compute. reflexivity. Qed.

Lemma clamp_fields_ok (a : AppraisalResult) :
  exists a', foldM clamp_field APPRAISAL_FIELDS a = Ok a'.
Proof.
  apply foldM_ok. intros name acc Hin. unfold clamp_field.
  assert (Hv : valid_field name = true).
  { unfold valid_field. apply existsb_exists. exists name. split; [ exact Hin | ].
    apply String.eqb_refl. }
  destruct (getattr_ok acc name Hv) as [v E]. rewrite E. cbn [bind].
  eexists; reflexivity.
Qed.

(** The body of [appraise_message] returns for every state and every
    lowered text. *)
Lemma appraise_lowered_total (self : AdvancedEmotionalState)
    (message_lower : string) :
  exists appraisal self',
    appraise_lowered self message_lower = Ok (appraisal, self').
Proof.
  unfold appraise_lowered.
  destruct (foldM_ok (appraise_pattern message_lower) APPRAISAL_PATTERNS)
    with (acc := (AppraisalResult_default, self)) as [[a1 s1] E1].
  { intros pattern acc Hin. apply appraise_pattern_ok.
    pose proof patterns_valid_table as Hall. unfold patterns_valid in Hall.
    rewrite forallb_forall in Hall. apply Hall, Hin. }
  rewrite E1. cbn [bind].
  destruct (clamp_fields_ok a1) as [a2 E2]. rewrite E2. cbn [bind].
  eexists; eexists; reflexivity.
Qed.

(** [appraise_message] returns for every state and every message. *)
Lemma appraise_message_total (self : AdvancedEmotionalState) (message : string) :
  exists appraisal self',
    appraise_message self message = Ok (appraisal, self').
Proof. exact (appraise_lowered_total self (lower message)). Qed.

(** ** The appraisal loop, split into its two strands *)

Lemma appraise_patterns_split (message_lower : string)
    (patterns : list AppraisalPattern) :
  forall (appraisal : AppraisalResult) (self : AdvancedEmotionalState),
    foldM (appraise_pattern message_lower) patterns (appraisal, self)
    = (appraisal' <- foldM (appraise_effects message_lower) patterns appraisal ;;
       Ok (appraisal',
           activate_all (activation_events message_lower patterns) self)).
Proof.
  induction patterns as [ | pattern patterns IH]; intros appraisal self.
  - reflexivity.
  - cbn [foldM activation_events flat_map].
    unfold activate_all. rewrite fold_left_app. fold (activate_all).
    unfold appraise_pattern, appraise_effects, pattern_event, pattern_weight.
    destruct (0 <? count_matches (keywords pattern) message_lower)%nat.
    + match goal with
      | |- context [foldM (apply_effect ?w) ?effects ?a] =>
          destruct (foldM (apply_effect w) effects a) as [a' | e]
      end; cbn [bind]; [ | reflexivity ].
      destruct (system_activation pattern) as [system | ]; cbn [bind];
        rewrite IH; reflexivity.
    + cbn [bind]. rewrite IH. reflexivity.
Qed.

Lemma appraise_lowered_split (self : AdvancedEmotionalState)
    (message_lower : string) :
  appraise_lowered self message_lower
  = (appraisal <- appraisal_of_lowered message_lower ;;
     let self' :=
       activate_all (activation_events message_lower APPRAISAL_PATTERNS) self in
     Ok (appraisal, set_last_appraisal self' appraisal)).
Proof.
  unfold appraise_lowered, appraisal_of_lowered.
  rewrite appraise_patterns_split.
  destruct (foldM (appraise_effects message_lower) APPRAISAL_PATTERNS
                  AppraisalResult_default) as [a1 | e]; cbn [bind];
    [ | reflexivity ].
  destruct (foldM clamp_field APPRAISAL_FIELDS a1) as [a2 | e]; reflexivity.
Qed.

Lemma appraise_message_split (self : AdvancedEmotionalState) (message : string) :
  appraise_message self message
  = (appraisal <- appraisal_of_message message ;;
     let self' :=
       activate_all (activation_events (lower message) APPRAISAL_PATTERNS) self in
     Ok (appraisal, set_last_appraisal self' appraisal)).
Proof. exact (appraise_lowered_split self (lower message)). Qed.

(** ** System activations stay in [0,1] under [_activate_system] *)

Lemma dict_set_bounded (d : Activations) (k : AffectiveSystem.t) (v : Q) :
  activations_bounded d -> 0 <= v <= 1 -> activations_bounded (dict_set d k v).
Proof.
  unfold activations_bounded. intros Hd Hv.
  induction Hd as [ | [k' v'] d Hhead Htail IH]; cbn [dict_set].
  - constructor; [ exact Hv | constructor ].
  - destruct (AffectiveSystem.eqb k' k); constructor; assumption.
Qed.

Lemma dict_get_set_same (d : Activations) (k : AffectiveSystem.t) (v default : Q) :
  dict_get (dict_set d k v) k default = v.
Proof.
  induction d as [ | [k' v'] d IH]; cbn [dict_set dict_get].
  - destruct k; reflexivity.
  - destruct (AffectiveSystem.eqb k' k) eqn:E; cbn [dict_get]; rewrite E; auto.
Qed.

Lemma activate_system_bounded (self : AdvancedEmotionalState)
    (system : AffectiveSystem.t) (intensity : Q) :
  activations_bounded (system_activations self) ->
  activations_bounded (system_activations (_activate_system self system intensity)).
Proof.
  intro H. unfold _activate_system. cbn [set_system_activations system_activations].
  apply dict_set_bounded; [ exact H | apply clamp01 ].
Qed.

Lemma activate_all_bounded (events : list (AffectiveSystem.t * Q))
    (self : AdvancedEmotionalState) :
  activations_bounded (system_activations self) ->
  activations_bounded (system_activations (activate_all events self)).
Proof.
  revert self. unfold activate_all.
  induction events as [ | event events IH]; intros self H; cbn [fold_left].
  - exact H.
  - apply IH, activate_system_bounded, H.
Qed.

Lemma activate_all_frame (events : list (AffectiveSystem.t * Q))
    (self : AdvancedEmotionalState) :
  current_affect (activate_all events self) = current_affect self /\
  baseline_affect (activate_all events self) = baseline_affect self /\
  emotional_inertia (activate_all events self) = emotional_inertia self.
Proof.
  revert self. unfold activate_all.
  induction events as [ | event events IH]; intros self; cbn [fold_left].
  - repeat split.
  - destruct (IH (_activate_system self (fst event) (snd event))) as (A & B & C).
    rewrite A, B, C. repeat split.
Qed.

(** ** The invariant under each call *)

Lemma appraise_message_valid (self self' : AdvancedEmotionalState)
    (message : string) (appraisal : AppraisalResult) :
  state_valid self ->
  appraise_message self message = Ok (appraisal, self') ->
  state_valid self'.
Proof.
  intros ((Hc & Ha) & Hb & Hi). rewrite appraise_message_split.
  destruct (appraisal_of_message message) as [a | e]; cbn [bind];
    [ | discriminate ].
  cbv zeta.
  generalize (activation_events (lower message) APPRAISAL_PATTERNS) as events.
  intros events E. injection E as _ <-.
  destruct (activate_all_frame events self) as (Fc & Fb & Fi).
  unfold state_valid, state_bounded, inertia_valid.
  change (current_affect (set_last_appraisal (activate_all events self) a))
    with (current_affect (activate_all events self)).
  change (baseline_affect (set_last_appraisal (activate_all events self) a))
    with (baseline_affect (activate_all events self)).
  change (emotional_inertia (set_last_appraisal (activate_all events self) a))
    with (emotional_inertia (activate_all events self)).
  change (system_activations (set_last_appraisal (activate_all events self) a))
    with (system_activations (activate_all events self)).
  rewrite Fc, Fb, Fi.
  repeat split; try assumption; try apply Hc; try apply Hb; try apply Hi.
  apply activate_all_bounded, Ha.
Qed.

Lemma record_state_frame (now : Q) (self : AdvancedEmotionalState) :
  baseline_affect (_record_state now self) = baseline_affect self /\
  emotional_inertia (_record_state now self) = emotional_inertia self.
Proof.
  unfold _record_state. destruct (max_history self <? _)%Z; split; reflexivity.
Qed.

Lemma update_affect_valid (now : Q) (self : AdvancedEmotionalState)
    (appraisal : AppraisalResult) :
  state_valid self -> state_valid (update_affect now self appraisal).
Proof.
  intros ((Hc & Ha) & Hb & Hi).
  unfold state_valid, state_bounded, inertia_valid.
  rewrite system_activations_update_affect.
  assert (F : baseline_affect (update_affect now self appraisal)
              = baseline_affect self /\
              emotional_inertia (update_affect now self appraisal)
              = emotional_inertia self).
  { unfold update_affect.
    match goal with
    | |- context [_record_state now ?s] =>
        destruct (record_state_frame now s) as [Fb Fi]
    end.
    rewrite Fb, Fi. split; reflexivity. }
  destruct F as [Fb Fi]. rewrite Fb, Fi.
  repeat split; try assumption; try apply Hb; try apply Hi.
  all: apply (update_affect_bounded now self appraisal Hc Hi).
Qed.

Lemma decay_activation_bounded (rate : Q) (item : AffectiveSystem.t * Q) :
  0 <= rate <= 1 -> 0 <= snd item <= 1 ->
  0 <= snd (decay_activation rate item) <= 1.
Proof.
  destruct item as [system activation]. cbn [snd]. intros [? ?] [? ?].
  unfold decay_activation.
  destruct (existsb _ _); [ | destruct (existsb _ _) ]; cbn [snd]; split; nra.
Qed.

Lemma decay_valid (now : Q) (self : AdvancedEmotionalState) (t : Q) :
  state_valid self -> 0 <= t <= 800 -> state_valid (decay now self (Some t)).
Proof.
  intros ((Hc & Ha) & Hb & Hi) Ht.
  pose proof (decay_rate_unit self t Ht) as Hr.
  unfold state_valid, state_bounded, inertia_valid.
  rewrite current_affect_decay, system_activations_decay, baseline_affect_decay.
  change (emotional_inertia (decay now self (Some t)))
    with (emotional_inertia self).
  split; [ split | split; [ exact Hb | exact Hi ] ].
  { apply (decay_toward_bounded _ _ _ Hc Hb Hr). }
  unfold activations_bounded in *. rewrite Forall_map.
  eapply Forall_impl; [ | exact Ha ].
  intros item Hitem. apply decay_activation_bounded; assumption.
Qed.

(** Every sequence of calls whose [decay] pauses are at most 800 seconds
    returns, and keeps affect, baseline, activations and inertia in
    their intervals. *)
Lemma run_calls_valid (now : Q) (calls : list Call) :
  Forall short_pause calls ->
  forall self, state_valid self ->
  exists self', run_calls now calls self = Ok self' /\ state_valid self'.
Proof.
  unfold run_calls.
  induction 1 as [ | c calls Hc Hcalls IH]; intros self Hvalid; cbn [foldM].
  - exists self. split; [ reflexivity | exact Hvalid ].
  - destruct c as [message | appraisal | t]; cbn [run_call short_pause] in *.
    + destruct (appraise_message_total self message) as (a & s1 & E).
      rewrite E. cbn [bind snd].
      apply IH. apply (appraise_message_valid self s1 message a Hvalid E).
    + cbn [bind]. apply IH, update_affect_valid, Hvalid.
    + cbn [bind]. apply IH, decay_valid; assumption.
Qed.

Lemma initial_state_valid : state_valid initial_state.
Proof.
  unfold state_valid, state_bounded, affect_bounded, in_unit, inertia_valid,
    activations_bounded.
  cbn. repeat split; try lra. repeat constructor; cbn; lra.
Qed.

(** ** C2: the bounds invariant breaks under a long pause *)

(** C2. The invariant the claim states does not hold for the code.
    From the state of the factory, which satisfies every bound, an
    appraisal followed by [decay(3600)] leaves the CARE activation
    negative, and an [update_affect] followed by [decay(3600)] leaves the
    valence below -1: [decay] multiplies by [1 - decay_rate] and the rate
    is never capped at 1. *)
Theorem long_pause_breaks_bounds :
  state_valid initial_state /\
  (exists self,
      run_calls 0 [CallAppraise "thank you"; CallDecay 3600] initial_state
      = Ok self /\
      activation_of self AffectiveSystem.CARE < 0) /\
  (exists self,
      run_calls 0 [CallUpdateAffect (appraisal_of_pleasantness 1);
                   CallDecay 3600] initial_state
      = Ok self /\
      valence (current_affect self) < -1).
Proof.
  split; [ exact initial_state_valid | ].
  split; eexists; (split; [ vm_compute; reflexivity | vm_compute; reflexivity ]).
Qed.

(** Up to 800 seconds [decay] approaches the baseline monotonically. *)
Lemma decay_monotone_short_pause (now : Q) (self : AdvancedEmotionalState) (t : Q) :
  0 <= t <= 800 ->
  Rle (distance_to (current_affect (decay now self (Some t)))
                   (baseline_affect (decay now self (Some t))))
      (distance_to (current_affect self) (baseline_affect self)).
Proof.
  intro Ht. rewrite current_affect_decay, baseline_affect_decay.
  apply decay_toward_distance_le.
  pose proof (decay_rate_unit self t Ht). lra.
Qed.

(** ** C3: decay can move away from the baseline *)

(** C3. The monotone approach the claim states does not hold for the
    code.  After one [update_affect] on the state of the factory,
    [decay(3600)] selects the rate 4.5 and the distance to the baseline
    grows. *)
Theorem long_pause_increases_distance :
  Rlt (distance_to (current_affect pleased_state) (baseline_affect pleased_state))
      (distance_to (current_affect (decay 0 pleased_state (Some 3600)))
                   (baseline_affect (decay 0 pleased_state (Some 3600)))) /\
  decay_rate_of pleased_state 3600 == 4.5.
Proof.
  split.
  - apply distance_to_lt. vm_compute. reflexivity.
  - vm_compute. reflexivity.
Qed.

(** ** C5: negativity-bias decay asymmetry *)

Lemma distance_sq_negative_positive (xn xp b : AffectiveDimensions) :
  valence xn == -0.5 -> valence xp == 0.5 ->
  arousal xn == arousal xp -> dominance xn == dominance xp ->
  distance_sq xn b == distance_sq xp b + 2 * valence b /\
  0.25 + valence b ^ 2 + valence b <= distance_sq xn b.
Proof.
  intros Hvn Hvp Ha Hd. unfold distance_sq.
  rewrite Hvn, Hvp, Ha, Hd.
  pose proof (Qsquare_nonneg (arousal xp - arousal b)).
  pose proof (Qsquare_nonneg (dominance xp - dominance b)).
  split; [ ring | lra ].
Qed.

Lemma scaled_distance_lt (X Y Dp Dn : Q) :
  0 <= X -> X < Y -> 0 <= Dp -> Dp <= Dn -> 0 < Dn -> X * Dp < Y * Dn.
Proof.
  intros HX HXY HDp HD HDn.
  apply Qle_lt_trans with (X * Dn).
  - nra.
  - nra.
Qed.

(** C5, as stated, fails: with baseline valence -0.5 the negative state
    sits on its baseline, at distance 0 before and after the decay, so
    its distance is not greater than that of the positive state. *)
Lemma negative_baseline_reverses_asymmetry :
  create_advanced_emotional_state 0 "character" (-0.5) 0 0 0.25
  = Ok negative_baseline_state /\
  ~ Rlt (distance_to
           (current_affect
              (decay 0 (with_affect negative_baseline_state 0.5 0 0) (Some 60)))
           (baseline_affect (with_affect negative_baseline_state 0.5 0 0)))
        (distance_to
           (current_affect (decay 0 negative_baseline_state (Some 60)))
           (baseline_affect negative_baseline_state)).
Proof.
  split; [ reflexivity | ].
  apply Rle_not_lt, distance_to_le. vm_compute. discriminate.
Qed.

(** C5, amended. Two states share a baseline whose valence is not
    negative, have equal arousal and dominance, and valences -0.5 and
    +0.5.  After [decay] with the same elapsed time, positive and at most
    800 seconds, the negative state is strictly farther from the baseline
    than the positive state. *)
Theorem negativity_bias_decay_asymmetry
    (now : Q) (s_neg s_pos : AdvancedEmotionalState) (t : Q) :
  baseline_affect s_neg = baseline_affect s_pos ->
  valence (current_affect s_neg) == -0.5 ->
  valence (current_affect s_pos) == 0.5 ->
  arousal (current_affect s_neg) == arousal (current_affect s_pos) ->
  dominance (current_affect s_neg) == dominance (current_affect s_pos) ->
  0 <= valence (baseline_affect s_neg) ->
  0 < t <= 800 ->
  Rlt (distance_to (current_affect (decay now s_pos (Some t)))
                   (baseline_affect s_pos))
      (distance_to (current_affect (decay now s_neg (Some t)))
                   (baseline_affect s_neg)).
Proof.
  intros Hb Hvn Hvp Ha Hd Hbv [Ht0 Ht1].
  apply distance_to_lt.
  rewrite !current_affect_decay, !decay_toward_distance_sq.
  rewrite <- Hb.
  destruct (distance_sq_negative_positive
              (current_affect s_neg) (current_affect s_pos) (baseline_affect s_neg)
              Hvn Hvp Ha Hd) as [Hgap Hfar].
  pose proof (distance_sq_nonneg (current_affect s_pos) (baseline_affect s_neg))
    as Hpos.
  assert (Hbase : 0 < 0.05 * (t / 60.0) <= 2 # 3) by (qdiv; lra).
  destruct (decay_rate_cases s_neg t) as [(_ & En) | [(A & _) | (A & _)]];
    [ | lra | lra ].
  destruct (decay_rate_cases s_pos t) as [(A & _) | [(_ & _ & Ep) | (_ & A & _)]];
    [ lra | | lra ].
  pose proof (slow_rate_range (0.05 * (t / 60.0)) _ (Qlt_le_weak _ _ (proj1 Hbase))
                (arousal_factor_ge_1 (arousal (current_affect s_neg)))) as Hrn.
  rewrite <- En in Hrn. rewrite Ep.
  set (rn := decay_rate_of s_neg t) in *.
  set (base := 0.05 * (t / 60.0)) in *.
  apply scaled_distance_lt.
  - apply Qsquare_nonneg.
  - nra.
  - exact Hpos.
  - lra.
  - nra.
Qed.

Lemma negativity_bias_decay_asymmetry_witness :
  Rlt (distance_to
         (current_affect (decay 0 (with_affect initial_state 0.5 0.3 0.2) (Some 60)))
         (baseline_affect (with_affect initial_state 0.5 0.3 0.2)))
      (distance_to
         (current_affect
            (decay 0 (with_affect initial_state (-0.5) 0.3 0.2) (Some 60)))
         (baseline_affect (with_affect initial_state (-0.5) 0.3 0.2))).
Proof.
  apply (negativity_bias_decay_asymmetry
           0 (with_affect initial_state (-0.5) 0.3 0.2)
           (with_affect initial_state 0.5 0.3 0.2) 60).
  - reflexivity.
  - reflexivity.
  - reflexivity.
  - reflexivity.
  - reflexivity.
  - vm_compute. discriminate.
  - vm_compute. split; [ reflexivity | discriminate ].
Defined.

(** ** C8: totality and the zero appraisal *)

Lemma no_keyword_matchb_sound (message_lower : string) :
  no_keyword_matchb message_lower = true -> no_keyword_match message_lower.
Proof.
  unfold no_keyword_matchb, no_keyword_match. rewrite forallb_forall.
  intros H pattern kw Hp Hkw.
  specialize (H pattern Hp). rewrite forallb_forall in H.
  specialize (H kw Hkw). apply negb_true_iff in H. exact H.
Qed.

Lemma count_matches_none (kws : list string) (message_lower : string) :
  (forall kw, In kw kws -> contains message_lower kw = false) ->
  count_matches kws message_lower = 0%nat.
Proof.
  unfold count_matches. induction kws as [ | kw kws IH]; intro H; cbn [filter].
  - reflexivity.
  - rewrite (H kw (or_introl eq_refl)). apply IH.
    intros kw' Hin. apply H. right; exact Hin.
Qed.

Lemma pattern_weight_none (message_lower : string) (pattern : AppraisalPattern) :
  no_keyword_match message_lower -> In pattern APPRAISAL_PATTERNS ->
  pattern_weight message_lower pattern = None.
Proof.
  intros H Hin. unfold pattern_weight.
  rewrite count_matches_none; [ reflexivity | ].
  intros kw Hkw. apply (H pattern kw Hin Hkw).
Qed.

Lemma appraisal_of_lowered_none (message_lower : string) :
  no_keyword_match message_lower ->
  appraisal_of_lowered message_lower = Ok AppraisalResult_default.
Proof.
  intro H. unfold appraisal_of_lowered.
  rewrite foldM_unchanged.
  - reflexivity.
  - intros pattern acc Hin. unfold appraise_effects.
    rewrite (pattern_weight_none message_lower pattern H Hin). reflexivity.
Qed.

Lemma activation_events_none (message_lower : string) :
  no_keyword_match message_lower ->
  activation_events message_lower APPRAISAL_PATTERNS = [].
Proof.
  intro H. unfold activation_events.
  assert (G : forall patterns,
             (forall p, In p patterns -> In p APPRAISAL_PATTERNS) ->
             flat_map (pattern_event message_lower) patterns = []).
  { induction patterns as [ | p patterns IH]; intro Hsub; cbn [flat_map].
    - reflexivity.
    - unfold pattern_event at 1.
      rewrite (pattern_weight_none message_lower p H (Hsub p (or_introl eq_refl))).
      cbn [app]. apply IH. intros q Hq. apply Hsub. right; exact Hq. }
  apply G. auto.
Qed.

Lemma appraise_lowered_none (self : AdvancedEmotionalState)
    (message_lower : string) :
  no_keyword_match message_lower ->
  appraise_lowered self message_lower
  = Ok (AppraisalResult_default, set_last_appraisal self AppraisalResult_default).
Proof.
  intro H. rewrite appraise_lowered_split.
  rewrite (appraisal_of_lowered_none message_lower H).
  rewrite (activation_events_none message_lower H). reflexivity.
Qed.

(** C8. [appraise_message] returns normally for every state and every
    text, and for the empty string the returned appraisal has its ten
    fields at the zero default.  So it has for every text without a
    keyword: whatever text [message.lower()] returned, if no keyword of
    the pattern table occurs in it, the rest of the method returns the
    zero default and changes the state in [last_appraisal] only.  The
    hypothesis is on the lowered text itself and not on a model of
    [str.lower]. *)
Theorem appraise_message_total_zero_on_no_match :
  (forall (self : AdvancedEmotionalState) (message : string),
      exists appraisal self',
        appraise_message self message = Ok (appraisal, self')) /\
  (forall self : AdvancedEmotionalState,
      appraise_message self ""
      = Ok (AppraisalResult_default,
            set_last_appraisal self AppraisalResult_default)) /\
  (forall (self : AdvancedEmotionalState) (message_lower : string),
      no_keyword_match message_lower ->
      appraise_lowered self message_lower
      = Ok (AppraisalResult_default,
            set_last_appraisal self AppraisalResult_default)).
Proof.
  split; [ exact appraise_message_total | ].
  split.
  - intro self. apply (appraise_lowered_none self (lower "")).
    apply no_keyword_matchb_sound. vm_compute. reflexivity.
  - exact appraise_lowered_none.
Qed.

Lemma appraise_message_total_zero_on_no_match_witness :
  lower "Zzz... 42 UNKNOWN" = "zzz... 42 unknown" /\
  no_keyword_match "zzz... 42 unknown" /\
  appraise_message initial_state "Zzz... 42 UNKNOWN"
  = Ok (AppraisalResult_default,
        set_last_appraisal initial_state AppraisalResult_default).
Proof.
  assert (H : no_keyword_match "zzz... 42 unknown").
  { apply no_keyword_matchb_sound. vm_compute. reflexivity. }
  split; [ reflexivity | ].
  split; [ exact H | ].
  apply (proj2 (proj2 appraise_message_total_zero_on_no_match)
               initial_state "zzz... 42 unknown" H).
Defined.

(** ** C6: the gratitude scenario *)

Lemma gratitude_appraisal :
  exists appraisal,
    appraisal_of_message gratitude_message = Ok appraisal /\
    pleasantness appraisal == 0.48.
Proof.
  eexists. split; [ vm_compute; reflexivity | vm_compute; reflexivity ].
Qed.

Lemma gratitude_events :
  exists w,
    activation_events (lower gratitude_message) APPRAISAL_PATTERNS
    = [(AffectiveSystem.CARE, w)] /\ w == 0.3.
Proof.
  eexists. split; [ vm_compute; reflexivity | vm_compute; reflexivity ].
Qed.

Lemma activation_after_activate (self : AdvancedEmotionalState)
    (system : AffectiveSystem.t) (intensity : Q) :
  activation_of (_activate_system self system intensity) system
  = Qmax 0 (Qmin 1 (activation_of self system
                    + (intensity - activation_of self system)
                      * (1 - emotional_inertia self))).
Proof.
  unfold activation_of, _activate_system.
  cbn [set_system_activations system_activations].
  apply dict_get_set_same.
Qed.

Lemma activation_moves_up (cur w i : Q) :
  cur < w -> w <= 1 -> i < 1 ->
  cur < Qmax 0 (Qmin 1 (cur + (w - cur) * (1 - i))).
Proof.
  intros Hcur Hw Hi.
  assert (Hnew : cur < cur + (w - cur) * (1 - i)) by nra.
  apply Qlt_le_trans with (Qmin 1 (cur + (w - cur) * (1 - i))).
  - destruct (Q.min_spec 1 (cur + (w - cur) * (1 - i))) as [[? E] | [? E]];
      rewrite E; lra.
  - apply Q.le_max_r.
Qed.

Lemma activation_does_not_move_up (cur w i : Q) :
  0 <= w <= cur -> i <= 1 ->
  Qmax 0 (Qmin 1 (cur + (w - cur) * (1 - i))) <= cur.
Proof.
  intros [Hw Hcur] Hi.
  assert (Hnew : cur + (w - cur) * (1 - i) <= cur) by nra.
  apply Q.max_lub; [ lra | ].
  eapply Qle_trans; [ apply Q.le_min_r | exact Hnew ].
Qed.

(** C6, as stated, fails: on the state of the factory the returned
    pleasantness is 0.48, which is not greater than 0.5. *)
Lemma gratitude_pleasantness_below_half :
  exists appraisal self',
    appraise_message initial_state gratitude_message = Ok (appraisal, self') /\
    pleasantness appraisal == 0.48 /\
    ~ 0.5 < pleasantness appraisal.
Proof.
  eexists. eexists. split; [ vm_compute; reflexivity | ].
  split; [ vm_compute; reflexivity | vm_compute; discriminate ].
Qed.

(** C6, amended. On every state the message matches two keywords of the
    gratitude pattern only: the returned pleasantness is 0.48, and the
    CARE activation moves toward the stimulus intensity 0.3.  It is
    strictly greater after the call whenever it was below 0.3 and the
    inertia is below 1; from 0.3 upward it does not increase. *)
Theorem gratitude_scenario (self : AdvancedEmotionalState) :
  exists appraisal self',
    appraise_message self gratitude_message = Ok (appraisal, self') /\
    pleasantness appraisal == 0.48 /\
    (activation_of self AffectiveSystem.CARE < 0.3 ->
     emotional_inertia self < 1 ->
     activation_of self AffectiveSystem.CARE
     < activation_of self' AffectiveSystem.CARE) /\
    (0.3 <= activation_of self AffectiveSystem.CARE ->
     emotional_inertia self <= 1 ->
     activation_of self' AffectiveSystem.CARE
     <= activation_of self AffectiveSystem.CARE).
Proof.
  destruct gratitude_appraisal as (appraisal & Ea & Hp).
  destruct gratitude_events as (w & Ee & Hw).
  exists appraisal.
  exists (set_last_appraisal (_activate_system self AffectiveSystem.CARE w)
                             appraisal).
  split.
  - rewrite appraise_message_split, Ea, Ee. reflexivity.
  - split; [ exact Hp | ].
    change (activation_of
              (set_last_appraisal (_activate_system self AffectiveSystem.CARE w)
                                  appraisal) AffectiveSystem.CARE)
      with (activation_of (_activate_system self AffectiveSystem.CARE w)
                          AffectiveSystem.CARE).
    rewrite activation_after_activate.
    split.
    + intros Hcur Hi. apply activation_moves_up; lra.
    + intros Hcur Hi. apply activation_does_not_move_up; lra.
Qed.

Lemma gratitude_scenario_witness :
  exists appraisal self',
    appraise_message initial_state gratitude_message = Ok (appraisal, self') /\
    pleasantness appraisal == 0.48 /\
    activation_of initial_state AffectiveSystem.CARE
    < activation_of self' AffectiveSystem.CARE.
Proof.
  destruct (gratitude_scenario initial_state) as (a & s & E & Hp & Hup & _).
  exists a, s. split; [ exact E | ]. split; [ exact Hp | ].
  apply Hup.
  - vm_compute. reflexivity.
  - vm_compute. reflexivity.
Defined.

(** ** C9: emotion labelling *)

Lemma lt_min_some (x m : R) : lt_min x (Some m) = true <-> Rlt x m.
Proof.
  cbn [lt_min].
  destruct (Rlt_dec x m); split; intro H; auto; try discriminate; contradiction.
Qed.

Lemma lt_min_false (x : R) (md : option R) :
  lt_min x md = false -> exists m, md = Some m /\ Rle m x.
Proof.
  destruct md as [m | ]; cbn [lt_min]; [ | discriminate ].
  destruct (Rlt_dec x m) as [H | H]; [ discriminate | ].
  intros _. exists m. split; [ reflexivity | lra ].
Qed.

Lemma lt_min_trans (x y : R) (md : option R) :
  Rlt x y -> lt_min y md = true -> lt_min x md = true.
Proof.
  destruct md as [m | ]; [ | reflexivity ].
  rewrite !lt_min_some. lra.
Qed.

(** What the loop of [get_closest_emotion] returns: either nothing in
    the table beats the running minimum, or the first nearest entry. *)
Lemma closest_scan_spec (dimensions : AffectiveDimensions)
    (table : list (EmotionLabel.t * AffectiveDimensions)) :
  forall (md : option R) (cl : EmotionLabel.t),
    (closest_scan dimensions table md cl = (md, cl) /\
     forall e c, In (e, c) table ->
                 lt_min (distance_to dimensions c) md = false)
    \/
    (exists dist,
        fst (closest_scan dimensions table md cl) = Some dist /\
        is_first_nearest dimensions table
                         (snd (closest_scan dimensions table md cl)) dist /\
        lt_min dist md = true).
Proof.
  induction table as [ | [e c] rest IH]; intros md cl; cbn [closest_scan].
  - left. split; [ reflexivity | intros e c [] ].
  - destruct (lt_min (distance_to dimensions c) md) eqn:Hhead.
    + right.
      destruct (IH (Some (distance_to dimensions c)) e)
        as [[E Hall] | (dist & Ef & (i & coords & Hnth & Hd & Hmin & Hfirst) & Hlt)].
      * exists (distance_to dimensions c). rewrite E. cbn [fst snd].
        split; [ reflexivity | ]. split; [ | exact Hhead ].
        exists 0%nat, c. split; [ reflexivity | ]. split; [ reflexivity | ].
        split; [ | intros j e' c' Hj; lia ].
        intros [ | j] e' c' Hj; cbn [nth_error] in Hj.
        -- injection Hj as _ <-. lra.
        -- apply nth_error_In in Hj.
           destruct (lt_min_false _ _ (Hall e' c' Hj)) as (m & Em & Hm).
           injection Em as <-. exact Hm.
      * apply lt_min_some in Hlt.
        exists dist. split; [ exact Ef | ]. split.
        -- exists (S i), coords. split; [ exact Hnth | ]. split; [ exact Hd | ].
           split.
           ++ intros [ | j] e' c' Hj; cbn [nth_error] in Hj.
              ** injection Hj as _ <-. lra.
              ** apply (Hmin j e' c' Hj).
           ++ intros [ | j] e' c' Hlt' Hj; cbn [nth_error] in Hj.
              ** injection Hj as _ <-. exact Hlt.
              ** apply (Hfirst j e' c'); [ lia | exact Hj ].
        -- apply (lt_min_trans dist (distance_to dimensions c)); assumption.
    + destruct (IH md cl)
        as [[E Hall] | (dist & Ef & (i & coords & Hnth & Hd & Hmin & Hfirst) & Hlt)].
      * left. split; [ exact E | ].
        intros e' c' [Hin | Hin]; [ injection Hin as _ <-; exact Hhead | ].
        apply (Hall e' c' Hin).
      * right.
        destruct (lt_min_false _ _ Hhead) as (m & -> & Hm).
        apply lt_min_some in Hlt.
        exists dist. split; [ exact Ef | ]. split.
        -- exists (S i), coords. split; [ exact Hnth | ]. split; [ exact Hd | ].
           split.
           ++ intros [ | j] e' c' Hj; cbn [nth_error] in Hj.
              ** injection Hj as _ <-. lra.
              ** apply (Hmin j e' c' Hj).
           ++ intros [ | j] e' c' Hlt' Hj; cbn [nth_error] in Hj.
              ** injection Hj as _ <-. lra.
              ** apply (Hfirst j e' c'); [ lia | exact Hj ].
        -- apply lt_min_some. exact Hlt.
Qed.

Lemma distance_to_sqrtQ (a b : AffectiveDimensions) :
  distance_to a b = sqrtQ (distance_sq a b).
Proof. reflexivity. Qed.

Lemma lt_min_sq_agree (d : Q) (min_sq : option Q) :
  0 <= d -> (forall m, min_sq = Some m -> 0 <= m) ->
  lt_min (sqrtQ d) (option_map sqrtQ min_sq) = lt_min_sq d min_sq.
Proof.
  intros Hd Hm. destruct min_sq as [m | ]; [ | reflexivity ].
  specialize (Hm m eq_refl). cbn [option_map lt_min lt_min_sq]. unfold sqrtQ.
  case_Qltb d m; destruct (Rlt_dec (sqrt (Q2R d)) (sqrt (Q2R m))) as [H | H];
    try reflexivity.
  - exfalso. apply H. apply sqrt_Q2R_lt; assumption.
  - exfalso. pose proof (sqrt_Q2R_le m d E). lra.
Qed.

(** The loop on distances and the loop on squared distances select the
    same label, and the minimum of the first is the root of the minimum
    of the second. *)
Lemma closest_scan_agree (dimensions : AffectiveDimensions)
    (table : list (EmotionLabel.t * AffectiveDimensions)) :
  forall (min_sq : option Q) (cl : EmotionLabel.t),
    (forall m, min_sq = Some m -> 0 <= m) ->
    closest_scan dimensions table (option_map sqrtQ min_sq) cl
    = (option_map sqrtQ (fst (closest_scan_sq dimensions table min_sq cl)),
       snd (closest_scan_sq dimensions table min_sq cl)).
Proof.
  induction table as [ | [e c] rest IH]; intros min_sq cl Hm;
    cbn [closest_scan closest_scan_sq].
  - reflexivity.
  - rewrite distance_to_sqrtQ.
    rewrite (lt_min_sq_agree _ min_sq (distance_sq_nonneg dimensions c) Hm).
    destruct (lt_min_sq (distance_sq dimensions c) min_sq).
    + apply (IH (Some (distance_sq dimensions c)) e).
      intros m Em. injection Em as <-. apply distance_sq_nonneg.
    + apply IH, Hm.
Qed.

Lemma get_closest_emotion_eval (dimensions : AffectiveDimensions) :
  get_closest_emotion dimensions
  = (snd (get_closest_emotion_sq dimensions),
     match fst (get_closest_emotion_sq dimensions) with
     | Some q => Rmax 0 (1 - sqrtQ q / 2)
     | None => 0%R
     end).
Proof.
  unfold get_closest_emotion, get_closest_emotion_sq.
  change (@None R) with (option_map sqrtQ None).
  rewrite closest_scan_agree by (intros m Em; discriminate).
  destruct (closest_scan_sq dimensions EMOTION_COORDINATES None
                            EmotionLabel.NEUTRAL) as [[q | ] cl];
    reflexivity.
Qed.

Lemma get_closest_emotion_first_nearest (dimensions : AffectiveDimensions) :
  exists dist,
    is_first_nearest dimensions EMOTION_COORDINATES
                     (fst (get_closest_emotion dimensions)) dist /\
    snd (get_closest_emotion dimensions) = Rmax 0 (1 - dist / 2).
Proof.
  unfold get_closest_emotion.
  destruct (closest_scan_spec dimensions EMOTION_COORDINATES None
                              EmotionLabel.NEUTRAL)
    as [[_ Hall] | (dist & Ef & Hnear & _)].
  - exfalso.
    specialize (Hall EmotionLabel.EXCITEMENT (mkAffect 0.7 0.8 0.5)
                     (or_introl eq_refl)).
    discriminate.
  - destruct (closest_scan dimensions EMOTION_COORDINATES None
                           EmotionLabel.NEUTRAL) as [md cl].
    cbn [fst snd] in *. subst md. exists dist. split; [ exact Hnear | reflexivity ].
Qed.

(** C9. [get_closest_emotion] on the vector (0,0,0) returns NEUTRAL.  In
    general it returns the first label of the table, in iteration order,
    whose coordinate is at minimal Euclidean distance from the input,
    together with the confidence [max(0, 1 - min_distance / 2)]. *)
Theorem get_closest_emotion_deterministic :
  fst (get_closest_emotion (mkAffect 0 0 0)) = EmotionLabel.NEUTRAL /\
  forall dimensions : AffectiveDimensions,
    exists min_distance : R,
      is_first_nearest dimensions EMOTION_COORDINATES
                       (fst (get_closest_emotion dimensions)) min_distance /\
      snd (get_closest_emotion dimensions) = Rmax 0 (1 - min_distance / 2).
Proof.
  split.
  - rewrite get_closest_emotion_eval. cbn [fst].
    vm_compute. reflexivity.
  - exact get_closest_emotion_first_nearest.
Qed.

(** * Further properties of the engine *)

(** ** Sequences of calls *)

Lemma Forall_firstn {A : Type} (P : A -> Prop) (k : nat) (l : list A) :
  Forall P l -> Forall P (firstn k l).
Proof.
  intro H. revert k.
  induction H as [ | x l Hx Hl IH]; intros [ | k]; cbn [firstn]; constructor.
  - exact Hx.
  - apply IH.
Qed.

(** X1. From a state whose affect, baseline, activations and inertia
    are in their intervals, every sequence of [appraise_message],
    [update_affect] and [decay] calls whose pauses are between 0 and 800
    seconds returns, and after every call of the sequence the state is
    again in its intervals. *)
Theorem short_pause_calls_keep_bounds
    (now : Q) (calls : list Call) (self : AdvancedEmotionalState) (k : nat) :
  state_valid self ->
  Forall short_pause calls ->
  exists self',
    run_calls now (firstn k calls) self = Ok self' /\ state_valid self'.
Proof.
  intros Hvalid Hshort.
  apply run_calls_valid; [ apply Forall_firstn, Hshort | exact Hvalid ].
Qed.

Lemma short_pause_calls_keep_bounds_witness :
  exists self',
    run_calls 0 (firstn 2 [CallAppraise gratitude_message;
                           CallUpdateAffect (appraisal_of_pleasantness 0.8);
                           CallDecay 600]) initial_state
    = Ok self' /\ state_valid self'.
Proof.
  apply (short_pause_calls_keep_bounds 0).
  - exact initial_state_valid.
  - repeat constructor; vm_compute; discriminate.
Defined.

(** ** Decay *)

Lemma decay_rate_pos (self : AdvancedEmotionalState) (t : Q) :
  0 < t -> 0 < decay_rate_of self t.
Proof.
  intro Ht.
  assert (Hb : 0 < 0.05 * (t / 60.0)) by (qdiv; lra).
  destruct (decay_rate_cases self t) as [(_ & E) | [(_ & _ & E) | (_ & _ & E)]];
    rewrite E; try lra.
  pose proof (arousal_factor_ge_1 (arousal (current_affect self))) as Haf.
  apply Qlt_shift_div_l; lra.
Qed.

(** X2. A pause between 0 (excluded) and 800 seconds brings an affect
    that is off its baseline strictly closer to it: the squared distance
    is multiplied by [(1 - decay_rate)^2] with the rate in (0,1]. *)
Theorem decay_strictly_approaches_baseline
    (now : Q) (self : AdvancedEmotionalState) (t : Q) :
  0 < t <= 800 ->
  0 < distance_sq (current_affect self) (baseline_affect self) ->
  distance_sq (current_affect (decay now self (Some t)))
              (baseline_affect (decay now self (Some t)))
  == (1 - decay_rate_of self t) ^ 2
     * distance_sq (current_affect self) (baseline_affect self)
  /\
  Rlt (distance_to (current_affect (decay now self (Some t)))
                   (baseline_affect (decay now self (Some t))))
      (distance_to (current_affect self) (baseline_affect self)).
Proof.
  intros [Ht0 Ht1] Hoff.
  rewrite current_affect_decay, baseline_affect_decay.
  pose proof (decay_toward_distance_sq (current_affect self) (baseline_affect self)
                (decay_rate_of self t)) as Hd.
  split; [ exact Hd | ].
  apply distance_to_lt. rewrite Hd.
  pose proof (decay_rate_pos self t Ht0) as Hr0.
  assert (Ht : 0 <= t <= 800) by lra.
  pose proof (decay_rate_unit self t Ht) as [_ Hr1].
  assert (H1 : (1 - decay_rate_of self t) ^ 2 < 1) by nra.
  nra.
Qed.

Lemma decay_strictly_approaches_baseline_witness :
  Rlt (distance_to
         (current_affect (decay 0 (with_affect initial_state 0.8 0.6 0.4) (Some 60)))
         (baseline_affect
            (decay 0 (with_affect initial_state 0.8 0.6 0.4) (Some 60))))
      (distance_to (current_affect (with_affect initial_state 0.8 0.6 0.4))
                   (baseline_affect (with_affect initial_state 0.8 0.6 0.4))).
Proof.
  apply (decay_strictly_approaches_baseline
           0 (with_affect initial_state 0.8 0.6 0.4) 60).
  - vm_compute. split; [ reflexivity | discriminate ].
  - vm_compute. reflexivity.
Defined.

(** ** What [appraise_message] returns and what it leaves alone *)

Lemma clamp_fields_result (a : AppraisalResult) :
  foldM clamp_field APPRAISAL_FIELDS a
  = Ok (mkAppraisal
          (Qmax (-1) (Qmin 1 (novelty a)))
          (Qmax (-1) (Qmin 1 (pleasantness a)))
          (Qmax (-1) (Qmin 1 (goal_relevance a)))
          (Qmax (-1) (Qmin 1 (goal_conduciveness a)))
          (Qmax (-1) (Qmin 1 (urgency a)))
          (Qmax (-1) (Qmin 1 (control a)))
          (Qmax (-1) (Qmin 1 (power a)))
          (Qmax (-1) (Qmin 1 (adjustment a)))
          (Qmax (-1) (Qmin 1 (internal_standards a)))
          (Qmax (-1) (Qmin 1 (external_standards a)))).
Proof. destruct a. reflexivity. Qed.

Lemma appraisal_of_message_bounded (message : string) (a : AppraisalResult) :
  appraisal_of_message message = Ok a -> appraisal_bounded a.
Proof.
  unfold appraisal_of_message, appraisal_of_lowered.
  destruct (foldM (appraise_effects (lower message)) APPRAISAL_PATTERNS
                  AppraisalResult_default) as [a1 | e]; cbn [bind];
    [ | discriminate ].
  rewrite clamp_fields_result. intro E. injection E as <-.
  unfold appraisal_bounded.
  cbn [novelty pleasantness goal_relevance goal_conduciveness urgency control
       power adjustment internal_standards external_standards].
  repeat (split; [ apply clamp_unit | ]). apply clamp_unit.
Qed.

Lemma appraise_lowered_inv (self self' : AdvancedEmotionalState)
    (message_lower : string) (a : AppraisalResult) :
  appraise_lowered self message_lower = Ok (a, self') ->
  appraisal_of_lowered message_lower = Ok a /\
  self' = set_last_appraisal
            (activate_all (activation_events message_lower APPRAISAL_PATTERNS)
                          self) a.
Proof.
  rewrite appraise_lowered_split.
  destruct (appraisal_of_lowered message_lower) as [a0 | e]; cbn [bind];
    [ | discriminate ].
  cbv zeta. intro E. injection E as <- <-. split; reflexivity.
Qed.

Lemma appraise_message_inv (self self' : AdvancedEmotionalState)
    (message : string) (a : AppraisalResult) :
  appraise_message self message = Ok (a, self') ->
  appraisal_of_message message = Ok a /\
  self' = set_last_appraisal
            (activate_all (activation_events (lower message) APPRAISAL_PATTERNS)
                          self) a.
Proof. exact (appraise_lowered_inv self self' (lower message) a). Qed.

(** X3. Whatever the state and the text, the appraisal that
    [appraise_message] returns has each of its ten fields in [-1,1]. *)
Theorem appraise_message_result_in_range
    (self : AdvancedEmotionalState) (message : string) :
  exists a self',
    appraise_message self message = Ok (a, self') /\ appraisal_bounded a.
Proof.
  destruct (appraise_message_total self message) as (a & self' & E).
  exists a, self'. split; [ exact E | ].
  apply appraise_message_inv in E. destruct E as [Ea _].
  apply (appraisal_of_message_bounded message a Ea).
Qed.

Lemma activate_system_as_update (self : AdvancedEmotionalState)
    (system : AffectiveSystem.t) (intensity : Q) :
  _activate_system self system intensity
  = set_system_activations self
      (system_activations (_activate_system self system intensity)).
Proof. reflexivity. Qed.

Lemma activate_all_as_update (events : list (AffectiveSystem.t * Q))
    (self : AdvancedEmotionalState) :
  activate_all events self
  = set_system_activations self (system_activations (activate_all events self)).
Proof.
  revert self. unfold activate_all.
  induction events as [ | event events IH]; intro self; cbn [fold_left].
  - destruct self; reflexivity.
  - rewrite IH at 1. reflexivity.
Qed.

(** X4. A call of [appraise_message] changes two fields of the state
    only: [system_activations], and [last_appraisal], which becomes the
    returned appraisal.  Current affect, baseline, inertia, history and
    timestamp are those of the state before the call. *)
Theorem appraise_message_touches_two_fields
    (self : AdvancedEmotionalState) (message : string) :
  exists a self',
    appraise_message self message = Ok (a, self') /\
    self' = mkState (character_id self) (current_affect self)
                    (baseline_affect self) (system_activations self')
                    (Some a) (emotional_inertia self) (last_update self)
                    (affect_history self) (max_history self).
Proof.
  destruct (appraise_message_total self message) as (a & self' & E).
  exists a, self'. split; [ exact E | ].
  apply appraise_message_inv in E. destruct E as [_ ->].
  rewrite activate_all_as_update at 1. reflexivity.
Qed.

(** X5. The appraisal of a text does not depend on the state it is
    computed on: two states return the same appraisal for the same text. *)
Theorem appraisal_independent_of_state
    (s1 s2 : AdvancedEmotionalState) (message : string) :
  exists a s1' s2',
    appraise_message s1 message = Ok (a, s1') /\
    appraise_message s2 message = Ok (a, s2').
Proof.
  destruct (appraise_message_total s1 message) as (a1 & s1' & E1).
  destruct (appraise_message_total s2 message) as (a2 & s2' & E2).
  exists a1, s1', s2'. split; [ exact E1 | ].
  destruct (appraise_message_inv _ _ _ _ E1) as [Ea1 _].
  destruct (appraise_message_inv _ _ _ _ E2) as [Ea2 _].
  rewrite Ea1 in Ea2. injection Ea2 as <-. exact E2.
Qed.

(** X7. On every appraisal that [appraise_message] returns the clamp of
    [to_dimensions] is inert: the target is the plain average of the
    fields, valence of pleasantness and goal conduciveness, arousal of
    novelty, urgency and goal relevance, dominance of control and power. *)
Theorem to_dimensions_of_appraisal_is_average
    (self : AdvancedEmotionalState) (message : string) :
  exists a self',
    appraise_message self message = Ok (a, self') /\
    valence (to_dimensions a) == (pleasantness a + goal_conduciveness a) / 2 /\
    arousal (to_dimensions a)
    == (novelty a + urgency a + goal_relevance a) / 3 /\
    dominance (to_dimensions a) == (control a + power a) / 2.
Proof.
  destruct (appraise_message_total self message) as (a & self' & E).
  exists a, self'. split; [ exact E | ].
  destruct (appraise_message_inv _ _ _ _ E) as [Ea _].
  pose proof (appraisal_of_message_bounded message a Ea) as Hb.
  destruct Hb as (Hn & Hp & Hgr & Hgc & Hu & Hc & Hpw & _).
  unfold in_unit in *. unfold to_dimensions. cbn [valence arousal dominance].
  repeat split; apply clamp_unit_id; unfold in_unit; qdiv; lra.
Qed.

(** ** System activations: lookup after update *)

Lemma AffectiveSystem_eqb_eq (a b : AffectiveSystem.t) :
  AffectiveSystem.eqb a b = true <-> a = b.
Proof. destruct a, b; cbn; split; intro H; congruence. Qed.

Lemma AffectiveSystem_eqb_neq (a b : AffectiveSystem.t) :
  AffectiveSystem.eqb a b = false <-> a <> b.
Proof. destruct a, b; cbn; split; intro H; congruence. Qed.

Lemma dict_get_set_other (d : Activations) (k k' : AffectiveSystem.t)
    (v default : Q) :
  k <> k' -> dict_get (dict_set d k v) k' default = dict_get d k' default.
Proof.
  intro Hneq.
  induction d as [ | [k0 v0] d IH]; cbn [dict_set dict_get].
  - apply AffectiveSystem_eqb_neq in Hneq. rewrite Hneq. reflexivity.
  - destruct (AffectiveSystem.eqb k0 k) eqn:E0; cbn [dict_get].
    + apply AffectiveSystem_eqb_eq in E0. subst k0.
      apply AffectiveSystem_eqb_neq in Hneq. rewrite Hneq. reflexivity.
    + rewrite IH. reflexivity.
Qed.

Lemma activation_other_after_activate (self : AdvancedEmotionalState)
    (system other : AffectiveSystem.t) (intensity : Q) :
  system <> other ->
  activation_of (_activate_system self system intensity) other
  = activation_of self other.
Proof.
  intro Hneq. unfold activation_of, _activate_system.
  cbn [set_system_activations system_activations].
  apply dict_get_set_other, Hneq.
Qed.

(** X8. [_activate_system] stores a value in [0,1] whatever the former
    activation, the intensity and the inertia are; a lookup of the same
    system returns the stored value, and the activation of every other
    system is the one before the call. *)
Theorem activate_system_store_and_lookup
    (self : AdvancedEmotionalState) (system : AffectiveSystem.t) (intensity : Q) :
  0 <= activation_of (_activate_system self system intensity) system <= 1 /\
  activation_of (_activate_system self system intensity) system
  = Qmax 0 (Qmin 1 (activation_of self system
                    + (intensity - activation_of self system)
                      * (1 - emotional_inertia self))) /\
  forall other,
    other <> system ->
    activation_of (_activate_system self system intensity) other
    = activation_of self other.
Proof.
  rewrite activation_after_activate. split; [ apply clamp01 | ].
  split; [ reflexivity | ].
  intros other Hneq. apply activation_other_after_activate. congruence.
Qed.

Lemma activate_all_other (events : list (AffectiveSystem.t * Q))
    (self : AdvancedEmotionalState) (system : AffectiveSystem.t) :
  (forall event, In event events -> fst event <> system) ->
  activation_of (activate_all events self) system = activation_of self system.
Proof.
  revert self. unfold activate_all.
  induction events as [ | event events IH]; intros self Hev; cbn [fold_left].
  - reflexivity.
  - rewrite IH.
    + apply activation_other_after_activate. apply Hev. left; reflexivity.
    + intros ev Hin. apply Hev. right; exact Hin.
Qed.

Lemma activation_events_triggered (message_lower : string)
    (patterns : list AppraisalPattern) (event : AffectiveSystem.t * Q) :
  In event (activation_events message_lower patterns) ->
  exists pattern,
    In pattern patterns /\
    system_activation pattern = Some (fst event) /\
    count_matches (keywords pattern) message_lower <> 0%nat.
Proof.
  unfold activation_events. rewrite in_flat_map.
  intros (pattern & Hin & Hev). exists pattern. split; [ exact Hin | ].
  unfold pattern_event, pattern_weight in Hev.
  destruct (count_matches (keywords pattern) message_lower) as [ | n] eqn:Ec;
    cbn [Nat.ltb Nat.leb] in Hev.
  - destruct Hev.
  - destruct (system_activation pattern) as [system | ]; [ | destruct Hev ].
    destruct Hev as [<- | []]. split; [ reflexivity | discriminate ].
Qed.

(** X6. A text moves the activations of those systems only whose
    patterns it matches.  Whatever text [message.lower()] returned, if
    no pattern that triggers a system has a keyword in it, the rest of
    [appraise_message] returns and the activation of that system is the
    one before the call.  The hypothesis is on the lowered text itself
    and not on a model of [str.lower]. *)
Theorem appraise_message_keeps_untriggered_system
    (self : AdvancedEmotionalState) (message_lower : string)
    (system : AffectiveSystem.t) :
  system_not_triggered message_lower system ->
  exists a self',
    appraise_lowered self message_lower = Ok (a, self') /\
    activation_of self' system = activation_of self system.
Proof.
  intro Hnot.
  destruct (appraise_lowered_total self message_lower) as (a & self' & E).
  exists a, self'. split; [ exact E | ].
  apply appraise_lowered_inv in E. destruct E as [_ ->].
  change (activation_of (set_last_appraisal ?s a) system)
    with (activation_of s system).
  apply activate_all_other.
  intros event Hin Heq.
  destruct (activation_events_triggered _ _ _ Hin) as (pattern & Hp & Hs & Hc).
  apply Hc. apply (Hnot pattern Hp). rewrite Hs, Heq. reflexivity.
Qed.

Lemma gratitude_does_not_trigger_rage :
  system_not_triggered "thank you so much, i am so grateful" AffectiveSystem.RAGE.
Proof.
  intros pattern Hin Hsys. unfold APPRAISAL_PATTERNS in Hin.
  repeat (destruct Hin as [<- | Hin];
          [ first [ discriminate Hsys | vm_compute; reflexivity ] | ]).
  destruct Hin.
Qed.

Lemma appraise_message_keeps_untriggered_system_witness :
  lower gratitude_message = "thank you so much, i am so grateful" /\
  exists a self',
    appraise_message initial_state gratitude_message = Ok (a, self') /\
    activation_of self' AffectiveSystem.RAGE
    = activation_of initial_state AffectiveSystem.RAGE.
Proof.
  split; [ reflexivity | ].
  apply (appraise_message_keeps_untriggered_system
           initial_state "thank you so much, i am so grateful"
           AffectiveSystem.RAGE).
  exact gratitude_does_not_trigger_rage.
Defined.

(** ** Momentum of the activations *)

Lemma clamp01_id (x : Q) : 0 <= x <= 1 -> Qmax 0 (Qmin 1 x) == x.
Proof.
  intros [Hlo Hhi]. rewrite (Q.min_r 1 x) by lra. apply Q.max_r. exact Hlo.
Qed.

Lemma activation_step (self : AdvancedEmotionalState)
    (system : AffectiveSystem.t) (intensity : Q) :
  inertia_valid self ->
  0 <= intensity <= 1 ->
  0 <= activation_of self system <= 1 ->
  activation_of (_activate_system self system intensity) system - intensity
  == emotional_inertia self * (activation_of self system - intensity).
Proof.
  intros [Hi0 Hi1] [Hs0 Hs1] [Hc0 Hc1].
  rewrite activation_after_activate.
  rewrite clamp01_id; [ ring | ].
  split; nra.
Qed.

Lemma Qpower_succ_nat (x : Q) (n : nat) :
  x ^ Z.of_nat (S n) == x ^ Z.of_nat n * x.
Proof.
  rewrite Nat2Z.inj_succ. unfold Z.succ.
  rewrite Qpower_plus' by lia.
  assert (H1 : x ^ 1 == x) by (cbn; ring).
  rewrite H1. reflexivity.
Qed.

(** X9. Momentum: as long as inertia, intensity and activation are in
    [0,1], the clamp of [_activate_system] is inert and each call
    multiplies the gap between the activation and the stimulus intensity
    by the inertia.  After [n] calls with the same stimulus the gap is
    the initial gap times [inertia ^ n]: the activation approaches the
    intensity without ever passing it. *)
Theorem repeated_activation_closes_gap
    (n : nat) (self : AdvancedEmotionalState)
    (system : AffectiveSystem.t) (intensity : Q) :
  inertia_valid self ->
  0 <= intensity <= 1 ->
  0 <= activation_of self system <= 1 ->
  activation_of (activate_repeatedly n self system intensity) system - intensity
  == emotional_inertia self ^ Z.of_nat n
     * (activation_of self system - intensity).
Proof.
  intros Hi Hs. revert self Hi.
  induction n as [ | n IH]; intros self Hi Hc; cbn [activate_repeatedly].
  - cbn. ring.
  - rewrite IH.
    + change (emotional_inertia (_activate_system self system intensity))
        with (emotional_inertia self).
      rewrite (activation_step self system intensity Hi Hs Hc).
      rewrite Qpower_succ_nat. ring.
    + exact Hi.
    + rewrite activation_after_activate. apply clamp01.
Qed.

Lemma repeated_activation_closes_gap_witness :
  activation_of
    (activate_repeatedly 3 initial_state AffectiveSystem.CARE 0.3)
    AffectiveSystem.CARE - 0.3
  == emotional_inertia initial_state ^ Z.of_nat 3
     * (activation_of initial_state AffectiveSystem.CARE - 0.3).
Proof.
  apply (repeated_activation_closes_gap 3 initial_state AffectiveSystem.CARE 0.3).
  - vm_compute. split; discriminate.
  - vm_compute. split; discriminate.
  - vm_compute. split; discriminate.
Defined.

(** ** System influence *)

Lemma influence_fold_inactive (d : Activations) (acc : AffectiveDimensions * Q) :
  Forall (fun item => snd item <= 0.1) d ->
  fold_left influence_step d acc = acc.
Proof.
  intro H. revert acc.
  induction H as [ | [system activation] d Hhead Htail IH]; intro acc;
    cbn [fold_left].
  - reflexivity.
  - rewrite <- (IH acc) at 2. f_equal.
    destruct acc as [si total]. unfold influence_step.
    cbn [snd] in Hhead. apply Qltb_false in Hhead. rewrite Hhead. reflexivity.
Qed.

(** X10. The influence of the affective systems on [update_affect] is
    the zero vector when no activation exceeds 0.1, so that nothing is
    divided by a zero total; in every case its valence lies in
    [-0.8,0.8], its arousal in [-0.9,0.9] and its dominance in [-0.7,0.7],
    the largest coordinates of [SYSTEM_DIMENSIONS], whatever values the
    activations have. *)
Theorem system_influence_zero_or_in_hull (d : Activations) :
  (Forall (fun item => snd item <= 0.1) d ->
   system_influence_of d = mkAffect 0.0 0.0 0.0) /\
  (-0.8 <= valence (system_influence_of d) <= 0.8) /\
  (-0.9 <= arousal (system_influence_of d) <= 0.9) /\
  (-0.7 <= dominance (system_influence_of d) <= 0.7).
Proof.
  split; [ | apply system_influence_range ].
  intro H. unfold system_influence_of.
  rewrite (influence_fold_inactive d _ H). reflexivity.
Qed.

Lemma system_influence_zero_or_in_hull_witness :
  system_influence_of (system_activations initial_state) = mkAffect 0.0 0.0 0.0.
Proof.
  apply (system_influence_zero_or_in_hull (system_activations initial_state)).
  repeat constructor; vm_compute; discriminate.
Defined.

(** ** Full inertia *)

(** X11. With emotional inertia 1 the blend weight of [update_affect] is
    0 in each of its three branches: the call leaves valence, arousal and
    dominance as they were, whatever the appraisal and the activations. *)
Theorem full_inertia_freezes_affect
    (now : Q) (self : AdvancedEmotionalState) (appraisal : AppraisalResult) :
  emotional_inertia self == 1 ->
  valence (current_affect (update_affect now self appraisal))
  == valence (current_affect self) /\
  arousal (current_affect (update_affect now self appraisal))
  == arousal (current_affect self) /\
  dominance (current_affect (update_affect now self appraisal))
  == dominance (current_affect self).
Proof.
  intro Hi. rewrite current_affect_update_affect.
  set (ct := combined_target self appraisal).
  assert (Hw : Qmin 1.0 (transition_resistance self ct) == 0).
  { destruct (transition_resistance_cases self ct)
      as [(_ & _ & E) | [(_ & _ & E) | (_ & _ & E)]]; rewrite E;
      rewrite Q.min_r by (rewrite Hi; lra); rewrite Hi; ring. }
  cbn [blend valence arousal dominance].
  repeat split; rewrite Hw; ring.
Qed.

Lemma full_inertia_freezes_affect_witness :
  valence (current_affect
             (update_affect 0 frozen_state (appraisal_of_pleasantness 0.8)))
  == valence (current_affect frozen_state).
Proof.
  apply (full_inertia_freezes_affect 0 frozen_state (appraisal_of_pleasantness 0.8)).
  reflexivity.
Defined.

(** ** History *)

Lemma last_skipn {A : Type} (k : nat) (l : list A) (d : A) :
  (k < List.length l)%nat -> last (skipn k l) d = last l d.
Proof.
  revert l. induction k as [ | k IH]; intros l Hk.
  - reflexivity.
  - destruct l as [ | x l]; cbn [List.length] in Hk; [ lia | ].
    cbn [skipn]. rewrite IH by lia.
    destruct l as [ | y l]; [ cbn [List.length] in Hk; lia | reflexivity ].
Qed.

Lemma record_state_history (now : Q) (self : AdvancedEmotionalState) :
  let history := (affect_history self ++ [snapshot_of now self])%list in
  affect_history (_record_state now self)
  = if (max_history self <? Z.of_nat (List.length history))%Z
    then slice_from history (- max_history self)
    else history.
Proof.
  cbv zeta. unfold _record_state. fold (snapshot_of now self).
  destruct (max_history self <? _)%Z; reflexivity.
Qed.

(** X12. [_record_state] appends one snapshot of the state and trims:
    with a positive [max_history] the history has
    [min(len + 1, max_history)] entries afterwards; with [max_history]
    equal to 0 the slice [history[-0:]] is the whole list, so nothing is
    ever dropped.  In both cases the last entry is the snapshot just
    taken. *)
Theorem record_state_history_bound (now : Q) (self : AdvancedEmotionalState) :
  (0 <= max_history self)%Z ->
  ((0 < max_history self)%Z ->
   Z.of_nat (List.length (affect_history (_record_state now self)))
   = Z.min (Z.of_nat (List.length (affect_history self)) + 1)
           (max_history self)) /\
  (max_history self = 0%Z ->
   affect_history (_record_state now self)
   = (affect_history self ++ [snapshot_of now self])%list) /\
  last (affect_history (_record_state now self)) (snapshot_of now self)
  = snapshot_of now self.
Proof.
  intro Hmh. rewrite record_state_history. cbv zeta.
  set (history := (affect_history self ++ [snapshot_of now self])%list).
  assert (Hlen : List.length history = S (List.length (affect_history self))).
  { unfold history. rewrite length_app. cbn [List.length]. lia. }
  assert (Hlast : last history (snapshot_of now self) = snapshot_of now self).
  { unfold history. apply last_last. }
  unfold slice_from.
  destruct (max_history self <? Z.of_nat (List.length history))%Z eqn:Hcmp.
  - apply Z.ltb_lt in Hcmp.
    destruct (- max_history self <? 0)%Z eqn:Hneg.
    + apply Z.ltb_lt in Hneg. split; [ | split ].
      * intros _. rewrite length_skipn. lia.
      * intro H0. lia.
      * rewrite last_skipn by lia. exact Hlast.
    + apply Z.ltb_ge in Hneg.
      assert (H0 : max_history self = 0%Z) by lia.
      rewrite H0. cbn [Z.opp]. rewrite Z.min_l by lia. cbn [Z.to_nat skipn].
      split; [ intro; lia | ]. split; [ reflexivity | exact Hlast ].
  - apply Z.ltb_ge in Hcmp. split; [ | split ].
    + intros _. lia.
    + intro H0. lia.
    + exact Hlast.
Qed.

Lemma record_state_history_bound_witness :
  Z.of_nat (List.length (affect_history (_record_state 0 initial_state)))
  = Z.min (Z.of_nat (List.length (affect_history initial_state)) + 1)
          (max_history initial_state).
Proof.
  apply (record_state_history_bound 0 initial_state).
  - vm_compute. discriminate.
  - vm_compute. reflexivity.
Defined.

(** ** Decay of the system activations *)

Lemma decay_activation_key (rate : Q) (item : AffectiveSystem.t * Q) :
  fst (decay_activation rate item) = fst item.
Proof.
  destruct item as [system activation]. unfold decay_activation.
  destruct (existsb _ _); [ | destruct (existsb _ _) ]; reflexivity.
Qed.

Lemma decay_activation_slow (rate activation : Q) (system : AffectiveSystem.t) :
  decays_slowly system ->
  snd (decay_activation rate (system, activation))
  = activation * (1 - rate * 0.5).
Proof. intros [-> | [-> | ->]]; reflexivity. Qed.

Lemma decay_activation_fast (rate activation : Q) (system : AffectiveSystem.t) :
  ~ decays_slowly system ->
  snd (decay_activation rate (system, activation)) = activation * (1 - rate) \/
  snd (decay_activation rate (system, activation))
  = activation * (1 - rate * 0.8).
Proof.
  unfold decays_slowly. intro H.
  destruct system; try (exfalso; apply H; auto; fail);
    (left; reflexivity) || (right; reflexivity).
Qed.

Lemma dict_get_decay (rate : Q) (d : Activations) (k : AffectiveSystem.t) :
  dict_get (map (decay_activation rate) d) k 0
  == snd (decay_activation rate (k, dict_get d k 0)).
Proof.
  induction d as [ | [k' v] d IH]; cbn [map dict_get].
  - destruct k; cbn; ring.
  - pose proof (decay_activation_key rate (k', v)) as Hkey.
    destruct (decay_activation rate (k', v)) as [k1 v1] eqn:E.
    cbn [fst] in Hkey. subst k1.
    destruct (AffectiveSystem.eqb k' k) eqn:Ek.
    + apply AffectiveSystem_eqb_eq in Ek. subst k'. rewrite E. reflexivity.
    + exact IH.
Qed.

Lemma activation_after_decay (now : Q) (self : AdvancedEmotionalState) (t : Q)
    (k : AffectiveSystem.t) :
  activation_of (decay now self (Some t)) k
  == snd (decay_activation (decay_rate_of self t) (k, activation_of self k)).
Proof.
  unfold activation_of. rewrite system_activations_decay. apply dict_get_decay.
Qed.

(** X13. Negative systems persist longer.  After a pause of at most 800
    seconds (and more than 0), a system among RAGE, FEAR and PANIC_GRIEF
    keeps strictly more activation than any other system that started
    with a positive activation not above its own: the first is
    multiplied by [1 - rate/2], the others by [1 - rate] (PLAY, CARE) or
    [1 - 0.8 rate] (SEEKING, LUST). *)
Theorem negative_systems_decay_slower
    (now : Q) (self : AdvancedEmotionalState) (t : Q)
    (negative other : AffectiveSystem.t) :
  0 < t <= 800 ->
  decays_slowly negative ->
  ~ decays_slowly other ->
  0 < activation_of self other ->
  activation_of self other <= activation_of self negative ->
  activation_of (decay now self (Some t)) other
  < activation_of (decay now self (Some t)) negative.
Proof.
  intros [Ht0 Ht1] Hneg Hother Hpos Hle.
  rewrite !activation_after_decay.
  rewrite (decay_activation_slow _ _ _ Hneg).
  pose proof (decay_rate_pos self t Ht0) as Hr0.
  assert (Ht : 0 <= t <= 800) by lra.
  pose proof (decay_rate_unit self t Ht) as [_ Hr1].
  set (r := decay_rate_of self t) in *.
  set (a := activation_of self other) in *.
  set (b := activation_of self negative) in *.
  assert (Hb : a * (1 - r * 0.5) <= b * (1 - r * 0.5)) by nra.
  destruct (decay_activation_fast r a other Hother) as [E | E]; rewrite E; nra.
Qed.

Lemma negative_systems_decay_slower_witness :
  activation_of
    (decay 0 (activate_all [(AffectiveSystem.RAGE, 0.5); (AffectiveSystem.PLAY, 0.5)]
                           initial_state) (Some 60))
    AffectiveSystem.PLAY
  < activation_of
      (decay 0 (activate_all [(AffectiveSystem.RAGE, 0.5);
                              (AffectiveSystem.PLAY, 0.5)]
                             initial_state) (Some 60))
      AffectiveSystem.RAGE.
Proof.
  apply (negative_systems_decay_slower 0).
  - vm_compute. split; [ reflexivity | discriminate ].
  - left. reflexivity.
  - intros [H | [H | H]]; discriminate H.
  - vm_compute. reflexivity.
  - vm_compute. discriminate.
Defined.

(** ** Decay at the same instant *)

Lemma decay_rate_zero (self : AdvancedEmotionalState) (t : Q) :
  t == 0 -> decay_rate_of self t == 0.
Proof.
  intro Ht.
  assert (Hb : 0.05 * (t / 60.0) == 0) by (rewrite Ht; reflexivity).
  destruct (decay_rate_cases self t) as [(_ & E) | [(_ & _ & E) | (_ & _ & E)]];
    rewrite E, Hb.
  - unfold Qdiv. ring.
  - ring.
  - reflexivity.
Qed.

Lemma decay_activation_zero_rate (rate : Q) (k : AffectiveSystem.t) (a : Q) :
  rate == 0 -> snd (decay_activation rate (k, a)) == a.
Proof. intro Hr. destruct k; cbn; rewrite Hr; ring. Qed.

Lemma decay_zero_elapsed (now : Q) (self : AdvancedEmotionalState) (t : Q) :
  t == 0 ->
  valence (current_affect (decay now self (Some t)))
  == valence (current_affect self) /\
  arousal (current_affect (decay now self (Some t)))
  == arousal (current_affect self) /\
  dominance (current_affect (decay now self (Some t)))
  == dominance (current_affect self) /\
  forall k, activation_of (decay now self (Some t)) k == activation_of self k.
Proof.
  intro Ht. pose proof (decay_rate_zero self t Ht) as Hr.
  rewrite current_affect_decay. cbn [decay_toward valence arousal dominance].
  repeat split; try (rewrite Hr; ring).
  intro k. rewrite activation_after_decay.
  apply decay_activation_zero_rate, Hr.
Qed.

(** X14. [decay()] without an argument takes the elapsed time from
    [last_update] and then sets [last_update] to the current instant.  A
    second call at the same instant therefore sees 0 seconds elapsed and
    changes neither the affect nor any activation. *)
Theorem decay_twice_at_one_instant (now : Q) (self : AdvancedEmotionalState) :
  valence (current_affect (decay now (decay now self None) None))
  == valence (current_affect (decay now self None)) /\
  arousal (current_affect (decay now (decay now self None) None))
  == arousal (current_affect (decay now self None)) /\
  dominance (current_affect (decay now (decay now self None) None))
  == dominance (current_affect (decay now self None)) /\
  forall k,
    activation_of (decay now (decay now self None) None) k
    == activation_of (decay now self None) k.
Proof.
  change (decay now (decay now self None) None)
    with (decay now (decay now self None) (Some (now - now))).
  apply decay_zero_elapsed. ring.
Qed.

(** ** The dominant system *)

Lemma max_item_spec (rest : Activations) :
  forall best,
    (max_item best rest = best \/ In (max_item best rest) rest) /\
    snd best <= snd (max_item best rest) /\
    (forall item, In item rest -> snd item <= snd (max_item best rest)).
Proof.
  induction rest as [ | item rest IH]; intro best; cbn [max_item].
  - split; [ left; reflexivity | ]. split; [ lra | intros item [] ].
  - case_Qltb (snd best) (snd item).
    + destruct (IH item) as (Hin & Hge & Hall).
      split; [ right; destruct Hin as [-> | Hin]; [ left | right ]; auto | ].
      split; [ lra | ].
      intros item' [<- | Hin']; [ exact Hge | apply Hall, Hin' ].
    + destruct (IH best) as (Hin & Hge & Hall).
      split; [ destruct Hin as [-> | Hin]; [ left | right; right ]; auto | ].
      split; [ exact Hge | ].
      intros item' [<- | Hin']; [ lra | apply Hall, Hin' ].
Qed.

(** X15. [get_dominant_system] returns nothing exactly when the
    dictionary is empty or every activation is below 0.1; otherwise it
    returns an entry of the dictionary whose activation is at least 0.1
    and is exceeded by no other entry. *)
Theorem get_dominant_system_spec (self : AdvancedEmotionalState) :
  match get_dominant_system self with
  | None =>
      forall item, In item (system_activations self) -> snd item < 0.1
  | Some max_system =>
      In max_system (system_activations self) /\
      0.1 <= snd max_system /\
      forall item, In item (system_activations self) ->
                   snd item <= snd max_system
  end.
Proof.
  unfold get_dominant_system.
  destruct (system_activations self) as [ | first rest].
  - intros item [].
  - destruct (max_item_spec rest first) as (Hin & Hge & Hall).
    case_Qltb (snd (max_item first rest)) 0.1.
    + intros item [<- | Hin']; [ lra | ].
      specialize (Hall item Hin'). lra.
    + split; [ destruct Hin as [-> | Hin]; [ left | right ]; auto | ].
      split; [ exact E | ].
      intros item [<- | Hin']; [ exact Hge | apply Hall, Hin' ].
Qed.

(** ** The response modifier *)

Lemma Q2R_one : Q2R 1 = 1%R.
Proof. unfold Q2R. cbn. lra. Qed.

Lemma neutral_in_table :
  nth_error EMOTION_COORDINATES 35
  = Some (EmotionLabel.NEUTRAL, mkAffect 0.0 0.0 0.0).
Proof. reflexivity. Qed.

(** Near the origin the nearest label is less than 1 away, so the
    confidence exceeds 0.5. *)
Lemma confident_near_origin (dimensions : AffectiveDimensions) :
  -0.5 <= valence dimensions <= 0.5 ->
  -0.3 <= arousal dimensions <= 0.5 ->
  -0.5 <= dominance dimensions <= 0.5 ->
  Rlt 0.5 (snd (get_closest_emotion dimensions)).
Proof.
  intros Hv Ha Hd.
  destruct (get_closest_emotion_first_nearest dimensions)
    as (dist & (i & coords & _ & _ & Hmin & _) & ->).
  specialize (Hmin 35%nat _ _ neutral_in_table).
  assert (Hsq : distance_sq dimensions (mkAffect 0.0 0.0 0.0) < 1).
  { unfold distance_sq. cbn [valence arousal dominance]. nra. }
  assert (Hone : Rlt (distance_to dimensions (mkAffect 0.0 0.0 0.0)) 1).
  { unfold distance_to.
    replace 1%R with (sqrt (Q2R 1)) by (rewrite Q2R_one; apply sqrt_1).
    apply sqrt_Q2R_lt; [ apply distance_sq_nonneg | exact Hsq ]. }
  apply Rlt_le_trans with (1 - dist / 2)%R; [ lra | apply Rmax_r ].
Qed.

Lemma Rgtb_true (a b : R) : Rlt b a -> Rgtb a b = true.
Proof. intro H. unfold Rgtb. destruct (Rlt_dec b a); [ reflexivity | contradiction ]. Qed.

Lemma response_modifiers_nonempty (self : AdvancedEmotionalState) :
  response_modifiers self <> [].
Proof.
  unfold response_modifiers, get_emotion_label.
  pose proof (confident_near_origin (current_affect self)) as Hconf.
  destruct (get_closest_emotion (current_affect self)) as [emotion confidence].
  cbn [snd] in Hconf.
  case_Qltb 0.5 (valence (current_affect self)); [ discriminate | ].
  case_Qltb (valence (current_affect self)) (-0.5); [ discriminate | ].
  case_Qltb 0.5 (arousal (current_affect self)); [ discriminate | ].
  case_Qltb (arousal (current_affect self)) (-0.3); [ discriminate | ].
  case_Qltb 0.5 (dominance (current_affect self)); [ discriminate | ].
  case_Qltb (dominance (current_affect self)) (-0.5); [ discriminate | ].
  cbn [app].
  rewrite Rgtb_true by (apply Hconf; split; assumption).
  destruct (get_dominant_system self) as [[system intensity] | ];
    [ destruct (Qltb 0.3 intensity) | ]; discriminate.
Qed.

(** X16. For a state whose current affect is made of numbers, the list
    of modifiers that [get_response_modifier] builds is not empty: when
    neither valence, arousal nor dominance adds a phrase, the affect is
    within 1 of the NEUTRAL coordinate, the confidence exceeds 0.5 and
    the phrase naming the emotion is added.  The result is then the
    bracketed list and not the fallback ["[Emotional state: neutral]"]
    behind [if modifiers].  A NaN component is outside the statement, as
    it is outside [Q]: every comparison of the method is then false, and
    this is how the source reaches the fallback. *)
Theorem numeric_affect_never_falls_back (self : AdvancedEmotionalState) :
  response_modifiers self <> [] /\
  get_response_modifier self
  = "[Emotional state: "
    ++ join ", " (filter_nonempty (response_modifiers self)) ++ "]".
Proof.
  pose proof (response_modifiers_nonempty self) as Hne.
  split; [ exact Hne | ].
  unfold get_response_modifier.
  destruct (response_modifiers self) as [ | m ms]; [ contradiction | reflexivity ].
Qed.

(** ** Labels and their coordinates *)

Lemma Q2R_zero (q : Q) : q == 0 -> Q2R q = 0%R.
Proof.
  intro H. rewrite (Qeq_eqR q 0 H). unfold Q2R. cbn. lra.
Qed.

Lemma get_closest_emotion_exact (dimensions : AffectiveDimensions)
    (e : EmotionLabel.t) (q : Q) :
  get_closest_emotion_sq dimensions = (Some q, e) -> q == 0 ->
  get_closest_emotion dimensions = (e, 1%R).
Proof.
  intros E Hq. rewrite get_closest_emotion_eval, E. cbn [fst snd].
  unfold sqrtQ. rewrite (Q2R_zero q Hq), sqrt_0.
  f_equal. rewrite Rmax_right; lra.
Qed.

(** X17. Every label is recovered from its own coordinate: for each of
    the 36 entries of [EMOTION_COORDINATES], [get_closest_emotion] on the
    coordinate of the entry returns the label of the entry with
    confidence 1.  No two labels share a coordinate. *)
Theorem label_of_own_coordinate :
  Forall (fun entry => get_closest_emotion (snd entry) = (fst entry, 1%R))
         EMOTION_COORDINATES.
Proof.
  unfold EMOTION_COORDINATES.
  repeat (constructor;
          [ cbn [fst snd]; eapply get_closest_emotion_exact;
            [ vm_compute; reflexivity | vm_compute; reflexivity ] | ]).
  constructor.
Qed.

(** ** The distance is a metric *)

Lemma distance_sq_sym (a b : AffectiveDimensions) :
  distance_sq a b == distance_sq b a.
Proof. unfold distance_sq. ring. Qed.

Lemma Qsquare_zero (x : Q) : x ^ 2 == 0 -> x == 0.
Proof. intro H. nra. Qed.

Lemma distance_sq_zero (a b : AffectiveDimensions) :
  distance_sq a b == 0 <->
  valence a == valence b /\ arousal a == arousal b /\ dominance a == dominance b.
Proof.
  unfold distance_sq. split.
  - intro H.
    pose proof (Qsquare_nonneg (valence a - valence b)) as H1.
    pose proof (Qsquare_nonneg (arousal a - arousal b)) as H2.
    pose proof (Qsquare_nonneg (dominance a - dominance b)) as H3.
    assert (E1 : (valence a - valence b) ^ 2 == 0) by lra.
    assert (E2 : (arousal a - arousal b) ^ 2 == 0) by lra.
    assert (E3 : (dominance a - dominance b) ^ 2 == 0) by lra.
    apply Qsquare_zero in E1, E2, E3. repeat split; lra.
  - intros (Hv & Ha & Hd). rewrite Hv, Ha, Hd. ring.
Qed.

(** Cauchy-Schwarz in three dimensions, through Lagrange's identity. *)
Lemma cauchy_schwarz3 (x1 x2 x3 y1 y2 y3 : Q) :
  (x1 * y1 + x2 * y2 + x3 * y3) ^ 2
  <= (x1 ^ 2 + x2 ^ 2 + x3 ^ 2) * (y1 ^ 2 + y2 ^ 2 + y3 ^ 2).
Proof.
  assert (L : (x1 ^ 2 + x2 ^ 2 + x3 ^ 2) * (y1 ^ 2 + y2 ^ 2 + y3 ^ 2)
              - (x1 * y1 + x2 * y2 + x3 * y3) ^ 2
              == (x1 * y2 - x2 * y1) ^ 2 + (x1 * y3 - x3 * y1) ^ 2
                 + (x2 * y3 - x3 * y2) ^ 2) by ring.
  pose proof (Qsquare_nonneg (x1 * y2 - x2 * y1)).
  pose proof (Qsquare_nonneg (x1 * y3 - x3 * y1)).
  pose proof (Qsquare_nonneg (x2 * y3 - x3 * y2)).
  lra.
Qed.

Lemma distance_sq_triangle_split (a b c : AffectiveDimensions) :
  distance_sq a c == distance_sq a b + distance_sq b c + 2 * cross_term a b c.
Proof. unfold distance_sq, cross_term. ring. Qed.

Lemma cross_term_bound (a b c : AffectiveDimensions) :
  cross_term a b c ^ 2 <= distance_sq a b * distance_sq b c.
Proof. unfold cross_term, distance_sq. apply cauchy_schwarz3. Qed.

Lemma distance_to_triangle (a b c : AffectiveDimensions) :
  Rle (distance_to a c) (Rplus (distance_to a b) (distance_to b c)).
Proof.
  unfold distance_to.
  pose proof (Q2R_nonneg _ (distance_sq_nonneg a b)) as HB.
  pose proof (Q2R_nonneg _ (distance_sq_nonneg b c)) as HC.
  pose proof (Qeq_eqR _ _ (distance_sq_triangle_split a b c)) as Hsplit.
  pose proof (Qle_Rle _ _ (cross_term_bound a b c)) as Hcs.
  rewrite !Q2R_plus, Q2R_mult in Hsplit.
  rewrite Q2R_mult in Hcs.
  assert (Hpow : Q2R (cross_term a b c ^ 2)
                 = (Q2R (cross_term a b c) * Q2R (cross_term a b c))%R).
  { rewrite <- Q2R_mult. apply Qeq_eqR. ring. }
  rewrite Hpow in Hcs.
  assert (H2 : Q2R 2 = 2%R) by (unfold Q2R; cbn; lra).
  rewrite H2 in Hsplit.
  set (A := Q2R (distance_sq a c)) in *.
  set (B := Q2R (distance_sq a b)) in *.
  set (C := Q2R (distance_sq b c)) in *.
  set (D := Q2R (cross_term a b c)) in *.
  pose proof (sqrt_pos B) as HsB. pose proof (sqrt_pos C) as HsC.
  pose proof (sqrt_sqrt B HB) as EB. pose proof (sqrt_sqrt C HC) as EC.
  assert (HD : (D <= sqrt B * sqrt C)%R).
  { destruct (Rle_dec D 0) as [Hneg | Hposd]; [ nra | ].
    assert (Hprod : (0 <= sqrt B * sqrt C)%R) by nra.
    assert (Hsq : (D * D <= (sqrt B * sqrt C) * (sqrt B * sqrt C))%R) by nra.
    nra. }
  rewrite <- (sqrt_square (sqrt B + sqrt C)) by lra.
  apply sqrt_le_1_alt. nra.
Qed.

(** X18. [distance_to] is a metric on the affect space: it is
    symmetric, it is 0 exactly for two vectors with equal valence,
    arousal and dominance, and it satisfies the triangle inequality.  The
    nearest-label search of [get_closest_emotion] rests on it. *)
Theorem distance_to_is_metric (a b c : AffectiveDimensions) :
  distance_to a b = distance_to b a /\
  (distance_to a b = 0%R <->
   valence a == valence b /\ arousal a == arousal b /\
   dominance a == dominance b) /\
  Rle (distance_to a c) (Rplus (distance_to a b) (distance_to b c)).
Proof.
  split; [ | split ].
  - unfold distance_to. rewrite (Qeq_eqR _ _ (distance_sq_sym a b)). reflexivity.
  - rewrite <- distance_sq_zero. unfold distance_to. split.
    + intro H. apply sqrt_eq_0 in H;
        [ | apply Q2R_nonneg, distance_sq_nonneg ].
      apply eqR_Qeq. rewrite H. unfold Q2R. cbn. lra.
    + intro H. rewrite (Q2R_zero _ H). apply sqrt_0.
  - apply distance_to_triangle.
Qed.

(** ** Saturation of the keyword count *)

Lemma weight_saturated (n : nat) :
  (4 <= n)%nat -> Qmin 1.0 (inject_Z (Z.of_nat n) * 0.3) = 1.0.
Proof.
  intro Hn.
  assert (Hle : 1.0 <= inject_Z (Z.of_nat n) * 0.3).
  { assert (H4 : inject_Z 4 <= inject_Z (Z.of_nat n)).
    { rewrite <- Zle_Qle. lia. }
    assert (E4 : inject_Z 4 == 4) by reflexivity.
    lra. }
  unfold Qmin, GenericMinMax.gmin.
  destruct (1.0 ?= inject_Z (Z.of_nat n) * 0.3) eqn:Ecmp; try reflexivity.
  exfalso. apply Qgt_alt in Ecmp. lra.
Qed.

(** X19. Four matching keywords saturate a pattern: [min(1.0, matches *
    0.3)] is 1.0 from four matches on, so two texts that each contain at
    least four keywords of a pattern make the loop body of
    [appraise_message] do the same for that pattern, to the appraisal and
    to the activation, however many more keywords either contains. *)
Theorem four_keywords_saturate
    (message_lower1 message_lower2 : string)
    (acc : AppraisalResult * AdvancedEmotionalState) (pattern : AppraisalPattern) :
  (4 <= count_matches (keywords pattern) message_lower1)%nat ->
  (4 <= count_matches (keywords pattern) message_lower2)%nat ->
  appraise_pattern message_lower1 acc pattern
  = appraise_pattern message_lower2 acc pattern.
Proof.
  intros H1 H2. destruct acc as [appraisal self]. unfold appraise_pattern.
  rewrite (weight_saturated _ H1), (weight_saturated _ H2).
  assert (E1 : (0 <? count_matches (keywords pattern) message_lower1)%nat = true)
    by (apply Nat.ltb_lt; lia).
  assert (E2 : (0 <? count_matches (keywords pattern) message_lower2)%nat = true)
    by (apply Nat.ltb_lt; lia).
  rewrite E1, E2. reflexivity.
Qed.

Lemma four_keywords_saturate_witness :
  appraise_pattern "thank you, i am grateful, how kind and generous"
                   (AppraisalResult_default, initial_state)
                   (nth 6 APPRAISAL_PATTERNS (mkPattern [] [] None))
  = appraise_pattern
      "thanks, i appreciate it, what a blessing, so thoughtful and kind"
      (AppraisalResult_default, initial_state)
      (nth 6 APPRAISAL_PATTERNS (mkPattern [] [] None)).
Proof.
  apply four_keywords_saturate.
  - vm_compute. repeat constructor.
  - vm_compute. repeat constructor.
Defined.

(** ** A fresh state is at rest *)

Lemma activation_of_fresh (self : AdvancedEmotionalState) (k : AffectiveSystem.t) :
  system_activations self = map (fun s => (s, 0.0)) AffectiveSystem.members ->
  activation_of self k == 0.
Proof. intro E. unfold activation_of. rewrite E. destruct k; reflexivity. Qed.

(** X20. A state that the factory has just returned is at rest: no
    system is dominant, and [decay] with any elapsed time, however long,
    leaves the affect on the baseline it was created with and every
    activation at 0. *)
Theorem fresh_state_is_at_rest
    (now : Q) (character_id : string) (bv ba bd inertia : Q)
    (self : AdvancedEmotionalState) (later t : Q) :
  create_advanced_emotional_state now character_id bv ba bd inertia = Ok self ->
  get_dominant_system self = None /\
  valence (current_affect (decay later self (Some t))) == bv /\
  arousal (current_affect (decay later self (Some t))) == ba /\
  dominance (current_affect (decay later self (Some t))) == bd /\
  forall k, activation_of (decay later self (Some t)) k == 0.
Proof.
  unfold create_advanced_emotional_state, AdvancedEmotionalState_init.
  destruct (Qle_bool 0.0 inertia && Qle_bool inertia 1.0); [ | discriminate ].
  intro E. injection E as <-.
  split; [ reflexivity | ].
  rewrite current_affect_decay.
  cbn [decay_toward current_affect baseline_affect valence arousal dominance].
  repeat split; try ring.
  intro k. rewrite activation_after_decay.
  match goal with
  | |- context [activation_of ?s k] =>
      assert (Ha : activation_of s k == 0)
        by (apply activation_of_fresh; reflexivity)
  end.
  destruct k; cbn [decay_activation AffectiveSystem.value existsb String.eqb
                   Ascii.eqb Bool.eqb orb snd]; rewrite Ha; ring.
Qed.

Lemma fresh_state_is_at_rest_witness :
  get_dominant_system initial_state = None /\
  valence (current_affect (decay 86400 initial_state (Some 86400))) == 0.15.
Proof.
  destruct (fresh_state_is_at_rest 0 "character" 0.15 0.1 0.0 0.25
              initial_state 86400 86400) as (Hd & Hv & _).
  - reflexivity.
  - split; [ exact Hd | exact Hv ].
Defined.

(** ** An unmatched message is not a no-op on the affect *)

(** X21. [update_affect] with the all-zero appraisal, the one
    [appraise_message] returns for a text without keywords, on a state
    with no activation above 0.1 and inertia in [0,1]: the combined
    target is the origin, no contamination branch applies, and each of
    valence, arousal and dominance is multiplied by the inertia.  The
    affect is pulled toward 0, not toward the baseline. *)
Theorem zero_appraisal_scales_affect_by_inertia
    (now : Q) (self : AdvancedEmotionalState) :
  inertia_valid self ->
  Forall (fun item => snd item <= 0.1) (system_activations self) ->
  valence (current_affect (update_affect now self AppraisalResult_default))
  == valence (current_affect self) * emotional_inertia self /\
  arousal (current_affect (update_affect now self AppraisalResult_default))
  == arousal (current_affect self) * emotional_inertia self /\
  dominance (current_affect (update_affect now self AppraisalResult_default))
  == dominance (current_affect self) * emotional_inertia self.
Proof.
  intros [Hi0 Hi1] Hquiet.
  rewrite current_affect_update_affect.
  assert (Ect : combined_target self AppraisalResult_default
                = blend (to_dimensions AppraisalResult_default)
                        (mkAffect 0.0 0.0 0.0) 0.4).
  { unfold combined_target.
    unfold system_influence_of.
    rewrite (influence_fold_inactive (system_activations self) _ Hquiet).
    reflexivity. }
  rewrite Ect.
  set (ct := blend (to_dimensions AppraisalResult_default)
                   (mkAffect 0.0 0.0 0.0) 0.4).
  assert (Hv : valence ct == 0) by reflexivity.
  assert (Ha : arousal ct == 0) by reflexivity.
  assert (Hd : dominance ct == 0) by reflexivity.
  assert (Hw : Qmin 1.0 (transition_resistance self ct)
               == 1 - emotional_inertia self).
  { destruct (transition_resistance_cases self ct)
      as [(_ & A & _) | [(_ & A & _) | (_ & _ & E)]]; [ lra | lra | ].
    rewrite E. apply Q.min_r. lra. }
  cbn [blend valence arousal dominance].
  rewrite Hw, Hv, Ha, Hd. repeat split; ring.
Qed.

Lemma zero_appraisal_scales_affect_by_inertia_witness :
  valence (current_affect (update_affect 0 initial_state AppraisalResult_default))
  == valence (current_affect initial_state) * emotional_inertia initial_state.
Proof.
  apply (zero_appraisal_scales_affect_by_inertia 0 initial_state).
  - vm_compute. split; discriminate.
  - repeat constructor; vm_compute; discriminate.
Defined.

(** ** The keys of the activation dictionary *)

Lemma dict_set_keys (d : Activations) (k : AffectiveSystem.t) (v : Q) :
  In k (map fst d) -> map fst (dict_set d k v) = map fst d.
Proof.
  induction d as [ | [k' v'] d IH]; cbn [map fst dict_set In].
  - intros [].
  - intro Hin. destruct (AffectiveSystem.eqb k' k) eqn:E; cbn [map fst].
    + reflexivity.
    + f_equal. apply IH. destruct Hin as [-> | Hin]; [ | exact Hin ].
      apply AffectiveSystem_eqb_neq in E. contradiction.
Qed.

Lemma member_of_members (k : AffectiveSystem.t) : In k AffectiveSystem.members.
Proof. destruct k; cbn; tauto. Qed.

Lemma activate_system_keys (self : AdvancedEmotionalState)
    (system : AffectiveSystem.t) (intensity : Q) :
  map fst (system_activations self) = AffectiveSystem.members ->
  map fst (system_activations (_activate_system self system intensity))
  = AffectiveSystem.members.
Proof.
  intro H. unfold _activate_system.
  cbn [set_system_activations system_activations].
  rewrite dict_set_keys; [ exact H | ].
  rewrite H. apply member_of_members.
Qed.

Lemma activate_all_keys (events : list (AffectiveSystem.t * Q))
    (self : AdvancedEmotionalState) :
  map fst (system_activations self) = AffectiveSystem.members ->
  map fst (system_activations (activate_all events self))
  = AffectiveSystem.members.
Proof.
  revert self. unfold activate_all.
  induction events as [ | event events IH]; intros self H; cbn [fold_left].
  - exact H.
  - apply IH, activate_system_keys, H.
Qed.

Lemma decay_keys (now : Q) (self : AdvancedEmotionalState) (t : Q) :
  map fst (system_activations (decay now self (Some t)))
  = map fst (system_activations self).
Proof.
  rewrite system_activations_decay, map_map.
  apply map_ext. intro item. apply decay_activation_key.
Qed.

(** X22. The dictionary of a state made by the factory holds the seven
    systems in the order of the enumeration, and no sequence of
    [appraise_message], [update_affect] and [decay] calls, with pauses of
    any length, adds, drops or reorders a key. *)
Theorem activation_keys_are_stable
    (now : Q) (calls : list Call) (self self' : AdvancedEmotionalState) :
  map fst (system_activations self) = AffectiveSystem.members ->
  run_calls now calls self = Ok self' ->
  map fst (system_activations self') = AffectiveSystem.members.
Proof.
  unfold run_calls.
  apply (foldM_invariant
           (fun s => map fst (system_activations s) = AffectiveSystem.members)).
  intros c s s1 _ Hs Hrun.
  destruct c as [message | appraisal | t]; cbn [run_call] in Hrun.
  - destruct (appraise_message s message) as [[a s2] | e] eqn:E;
      cbn [bind snd] in Hrun; [ | discriminate ].
    injection Hrun as <-.
    apply appraise_message_inv in E. destruct E as [_ ->].
    change (system_activations (set_last_appraisal ?x a))
      with (system_activations x).
    apply activate_all_keys, Hs.
  - injection Hrun as <-. rewrite system_activations_update_affect. exact Hs.
  - injection Hrun as <-. rewrite decay_keys. exact Hs.
Qed.

Lemma activation_keys_are_stable_witness :
  exists self',
    run_calls 0 [CallAppraise gratitude_message; CallDecay 3600] initial_state
    = Ok self' /\
    map fst (system_activations self') = AffectiveSystem.members.
Proof.
  eexists. split; [ vm_compute; reflexivity | ].
  apply (activation_keys_are_stable
           0 [CallAppraise gratitude_message; CallDecay 3600] initial_state).
  - reflexivity.
  - vm_compute. reflexivity.
Defined.
